(** * SideHustle bot: a shallow embedding of [bot.py] and its properties

    The bot is a Telegram front end over SQLite tables.  The embedding
    follows the source function by function:

    - Python [str] values are Rocq strings, one [ascii] per character
      (the Latin-1 part of Unicode; the two keyboard labels that contain
      emoji are kept as their UTF-8 bytes, they are only ever compared);
    - the tables [users], [jobs], [user_activity] and [daily_metrics] are
      lists of rows, with the AUTOINCREMENT counters next to them (the
      table [job_views] is created and never used); an insert appends,
      [INSERT OR REPLACE] deletes the row with the same key first;
    - a query over [users] reads the rows in ascending order of
      [user_id], the order of the table's primary key, and [ORDER BY]
      leaves rows of equal key in the order of the scan;
    - ids are the integers that SQLite stores (64 bits, signed); a larger
      number typed into an admin command makes the driver raise
      [OverflowError] when it is bound, which the model does not follow:
      there the number is an id like any other;
    - timestamps are seconds and dates are day numbers;
    - [user_state] (a dict of dicts) is a [gmap Z (gmap string string)];
    - outgoing messages are kept by template, with the values that the
      template interpolates; the markup is left out;
    - handlers run in a state-and-exception monad over the [World]: the
      store, the conversation map and the trace of transport calls;
    - the transport may refuse any single call (an oracle in [Env]);
    - a sqlite3 connection that has executed a write and not yet
      committed holds the write lock of the database file: a write from
      a second connection then fails with "database is locked". *)

From Stdlib Require Import ZArith Lia Ascii String.
From stdpp Require Import gmap strings list fin_maps pretty sorting.

Local Open Scope string_scope.
Local Open Scope Z_scope.

(** ** Python string operations used by the source *)

Module Py.

(** [str.isspace] on the characters of the model. *)
Definition is_space (c : ascii) : bool :=
  let n := nat_of_ascii c in
  ((9 <=? n) && (n <=? 13) || (28 <=? n) && (n <=? 32)
   || (n =? 133) || (n =? 160))%nat.

Definition is_digit (c : ascii) : bool :=
  let n := nat_of_ascii c in ((48 <=? n) && (n <=? 57))%nat.

(** [s[:n]] *)
Definition take (n : nat) (s : string) : string := String.substring 0 n s.

(** [s.startswith(p)] *)
Definition startswith (p s : string) : bool := String.prefix p s.

(** [sub in s] *)
Definition contains (sub s : string) : bool :=
  match String.index 0 sub s with Some _ => true | None => false end.

(** [s.split(sep)] for a one-character separator: never empty. *)
Fixpoint split (sep : ascii) (s : string) : list string :=
  match s with
  | EmptyString => [EmptyString]
  | String c s' =>
      if Ascii.eqb c sep then EmptyString :: split sep s'
      else match split sep s' with
           | w :: ws => String c w :: ws
           | [] => [String c EmptyString]
           end
  end.

(** [s.split(sep, 1)]: cut at the first separator only. *)
Fixpoint split1 (sep : ascii) (s : string) : list string :=
  match s with
  | EmptyString => [EmptyString]
  | String c s' =>
      if Ascii.eqb c sep then [EmptyString; s']
      else match split1 sep s' with
           | w :: ws => String c w :: ws
           | [] => [String c EmptyString]
           end
  end.

(** [s.split()]: the maximal runs of non-whitespace characters.
    [words_go s] is the run that starts [s] and the runs after it. *)
Fixpoint words_go (s : string) : string * list string :=
  match s with
  | EmptyString => (EmptyString, [])
  | String c s' =>
      let '(w, ws) := words_go s' in
      if is_space c
      then (EmptyString, match w with EmptyString => ws | _ => w :: ws end)
      else (String c w, ws)
  end.

Definition split_ws (s : string) : list string :=
  let '(w, ws) := words_go s in
  match w with EmptyString => ws | _ => w :: ws end.

(** The white space that [int] skips around a number: the white space
    of C and, on the characters of the model, U+0085 and U+00A0.  The
    separators U+001C to U+001F, which [str.split] takes for white space,
    are not skipped: [int] raises [ValueError] on them. *)
Definition is_int_space (c : ascii) : bool :=
  let n := nat_of_ascii c in
  ((9 <=? n) && (n <=? 13) || (n =? 32) || (n =? 133) || (n =? 160))%nat.

Fixpoint lstrip (s : string) : string :=
  match s with
  | String c s' => if is_int_space c then lstrip s' else s
  | EmptyString => EmptyString
  end.

(** The number inside the white space that [int] skips. *)
Definition strip (s : string) : string :=
  String.rev (lstrip (String.rev (lstrip s))).

(** The digits of [int(s)]: decimal digits, single underscores allowed
    between two digits. *)
Fixpoint int_digits (s : string) (acc : Z) (after_digit : bool) : option Z :=
  match s with
  | EmptyString => if after_digit then Some acc else None
  | String c s' =>
      if is_digit c
      then int_digits s' (10 * acc + (Z.of_nat (nat_of_ascii c) - 48)) true
      else if Ascii.eqb c "_"%char
           then (if after_digit then int_digits s' acc false else None)
           else None
  end.

(** [int(s)]: [None] stands for [ValueError]. *)
Definition int (s : string) : option Z :=
  match strip s with
  | String "-"%char d => Z.opp <$> int_digits d 0 false
  | String "+"%char d => int_digits d 0 false
  | d => int_digits d 0 false
  end.

(** [str(n)] for an integer. *)
Definition str (n : Z) : string := pretty n.

End Py.

(** ** The persistent store: the rows of the four tables *)

(** [users]: [user_id] is the primary key; [skills], [location],
    [is_banned] and [created] have column defaults. *)
Module User.
Record t := mk {
  user_id : Z;
  username : string;
  role : string;
  skills : string;
  location : string;
  is_banned : Z;
  created : Z
}.
End User.

Module Job.
Record t := mk {
  id : Z;
  client_id : Z;
  title : string;
  description : string;
  budget : string;
  status : string;
  created : Z
}.
End Job.

(** [user_activity] *)
Module Activity.
Record t := mk {
  id : Z;
  user_id : Z;
  action : string;
  details : string;
  timestamp : Z
}.
End Activity.

(** [daily_metrics]: [date] is the primary key. *)
Module Metric.
Record t := mk {
  date : Z;
  new_users : Z;
  new_jobs : Z;
  active_users : Z
}.
End Metric.

(** Timestamps are seconds, dates are day numbers: SQL's [DATE(ts)] and
    Python's [strftime('%Y-%m-%d')] both keep the day of a time. *)
Definition DATE (ts : Z) : Z := ts / 86400.

(** ** Transport: incoming updates and outgoing messages *)

Record Message := {
  from_user_id : Z;
  from_username : option string;
  chat_id : Z;
  text : string
}.

Record CallbackQuery := {
  call_from_user_id : Z;
  call_data : string;
  call_chat_id : Z;
  call_message_id : Z
}.

Inductive Exn :=
  | KeyError | IndexError | ValueError | ApiException | OperationalError.

(** One constructor per message template of the source, carrying the
    values the template interpolates. *)
Inductive Reply :=
  | AdminModeActivated
  | Welcome
  | AskSkills
  | AskLocation
  | ProfileComplete
  | AskJobTitle
  | AskJobDescription
  | AskBudget
  | JobPosted (title budget : string) (job_id : Z)
  | NewJobAvailable (title budget : string)
  | NoJobsAvailable
  | AvailableJobs (rows : list Job.t)
  | ProfileNotFound
  | YourProfile (row : User.t)
  | HelpText
  | TelegramInfo (user_id : Z) (username : string)
  | AdminNote (user_id : Z)
  | AdminAccessRequired
  | Dashboard (total_users total_jobs new_users_today new_jobs_today
               active_now : Z) (recent : list (Activity.t * User.t))
  | NoUsersRegistered
  | RegisteredUsers (rows : list User.t)
  | NoJobsPosted
  | AllJobs (rows : list (Job.t * option User.t))
  | ViewUserUsage
  | InvalidUserId
  | UserNotFound (user_id : Z)
  | UserDetails (row : User.t) (jobs_posted : Z) (activities : list Activity.t)
  | BanDone (username : string) (user_id : Z) (action : string)
  | ErrorText (e : Exn)
  | NoDataFor (date : Z)
  | DailyReport (row : Metric.t)
  | NoAnalytics
  | Analytics (trends : list Metric.t) (total_users total_jobs total_active : Z)
  | BroadcastUsage
  | BroadcastConfirmation (preview confirm_data cancel_data : string)
  | BroadcastCancelled
  | BroadcastSending
  | Announcement (broadcast_text : string)
  | BroadcastComplete (total_users sent_count failed_count : Z) (preview : string)
  | UnknownCommand.

(** A call of [bot.send_message] (or [bot.edit_message_text], with the id
    of the edited message) and whether the transport accepted it. *)
Record Attempt := {
  to : Z;
  edited : option Z;
  body : Reply;
  delivered : bool
}.

(** ** Configuration and environment *)

(** [ADMIN_ID] after the start-up conversion; [now] is the UTC clock that
    [CURRENT_TIMESTAMP] reads and [tz] the offset of [datetime.now()];
    [deliver k chat] says whether the [k]-th transport call, addressed to
    [chat], succeeds. *)
Record Env := {
  ADMIN_ID : option Z;
  now : Z;
  tz : Z;
  deliver : nat -> Z -> bool
}.

(** ** The world a handler runs in *)

Record World := {
  users : list User.t;
  jobs : list Job.t;
  user_activity : list Activity.t;
  daily_metrics : list Metric.t;
  jobs_seq : Z;
  activity_seq : Z;
  write_locked : bool;
  user_state : gmap Z (gmap string string);
  trace : list Attempt
}.

Definition set_users (f : list User.t -> list User.t) (w : World) : World :=
  {| users := f (users w); jobs := jobs w; user_activity := user_activity w;
     daily_metrics := daily_metrics w; jobs_seq := jobs_seq w;
     activity_seq := activity_seq w; write_locked := write_locked w;
     user_state := user_state w; trace := trace w |}.

Definition add_job (row : Job.t) (w : World) : World :=
  {| users := users w; jobs := jobs w ++ [row]; user_activity := user_activity w;
     daily_metrics := daily_metrics w; jobs_seq := Job.id row;
     activity_seq := activity_seq w; write_locked := write_locked w;
     user_state := user_state w; trace := trace w |}.

Definition add_activity (row : Activity.t) (w : World) : World :=
  {| users := users w; jobs := jobs w; user_activity := user_activity w ++ [row];
     daily_metrics := daily_metrics w; jobs_seq := jobs_seq w;
     activity_seq := Activity.id row; write_locked := write_locked w;
     user_state := user_state w; trace := trace w |}.

Definition set_daily_metrics (f : list Metric.t -> list Metric.t) (w : World) : World :=
  {| users := users w; jobs := jobs w; user_activity := user_activity w;
     daily_metrics := f (daily_metrics w); jobs_seq := jobs_seq w;
     activity_seq := activity_seq w; write_locked := write_locked w;
     user_state := user_state w; trace := trace w |}.

Definition set_write_locked (b : bool) (w : World) : World :=
  {| users := users w; jobs := jobs w; user_activity := user_activity w;
     daily_metrics := daily_metrics w; jobs_seq := jobs_seq w;
     activity_seq := activity_seq w; write_locked := b;
     user_state := user_state w; trace := trace w |}.

Definition set_user_state
    (f : gmap Z (gmap string string) -> gmap Z (gmap string string))
    (w : World) : World :=
  {| users := users w; jobs := jobs w; user_activity := user_activity w;
     daily_metrics := daily_metrics w; jobs_seq := jobs_seq w;
     activity_seq := activity_seq w; write_locked := write_locked w;
     user_state := f (user_state w); trace := trace w |}.

Definition add_attempt (a : Attempt) (w : World) : World :=
  {| users := users w; jobs := jobs w; user_activity := user_activity w;
     daily_metrics := daily_metrics w; jobs_seq := jobs_seq w;
     activity_seq := activity_seq w; write_locked := write_locked w;
     user_state := user_state w; trace := trace w ++ [a] |}.

(** ** The monad of handlers: state and Python exceptions *)

Inductive Res (A : Type) :=
  | Ok (a : A)
  | Raise (e : Exn).
Arguments Ok {A} a.
Arguments Raise {A} e.

Definition M (A : Type) : Type := World -> Res A * World.

Definition ret {A : Type} (a : A) : M A := fun w => (Ok a, w).

Definition bind {A B : Type} (m : M A) (k : A -> M B) : M B :=
  fun w => match m w with
           | (Ok a, w') => k a w'
           | (Raise e, w') => (Raise e, w')
           end.

Definition raise {A : Type} (e : Exn) : M A := fun w => (Raise e, w).

(** [try: m except Exception as e: h e] *)
Definition try_except {A : Type} (m : M A) (h : Exn -> M A) : M A :=
  fun w => match m w with
           | (Ok a, w') => (Ok a, w')
           | (Raise e, w') => h e w'
           end.

Definition get : M World := fun w => (Ok w, w).
Definition modify (f : World -> World) : M unit := fun w => (Ok tt, f w).

#[global] Instance M_ret : MRet M := @ret.
#[global] Instance M_bind : MBind M := fun A B k m => bind m k.

(** [d[k]] on a dict: [KeyError] when the key is absent. *)
Definition getitem {V : Type} (d : gmap string V) (k : string) : M V :=
  match d !! k with Some v => ret v | None => raise KeyError end.

(** A connection that executes a write and commits.  The write needs the
    write lock of the database file; when another connection holds it the
    statement raises [OperationalError] (database is locked). *)
Definition db_write (f : World -> World) : M unit :=
  fun w => if write_locked w then (Raise OperationalError, w) else (Ok tt, f w).

(** A connection that executes a write and leaves the transaction open:
    it takes the write lock and keeps it until [db_commit], which applies
    the staged change [f]. *)
Definition db_execute : M unit :=
  fun w => if write_locked w then (Raise OperationalError, w)
           else (Ok tt, set_write_locked true w).

Definition db_commit (f : World -> World) : M unit :=
  fun w => (Ok tt, set_write_locked false (f w)).

(** [bot.send_message(chat, ...)] *)
Definition send_message (env : Env) (chat : Z) (r : Reply) : M unit :=
  fun w =>
    let ok := deliver env (length (trace w)) chat in
    (if ok then Ok tt else Raise ApiException,
     add_attempt {| to := chat; edited := None; body := r; delivered := ok |} w).

(** [bot.edit_message_text(..., chat, message_id)] *)
Definition edit_message_text (env : Env) (r : Reply) (chat message_id : Z) : M unit :=
  fun w =>
    let ok := deliver env (length (trace w)) chat in
    (if ok then Ok tt else Raise ApiException,
     add_attempt {| to := chat; edited := Some message_id; body := r;
                    delivered := ok |} w).

(** Python's [l[i]]: [IndexError] out of range. *)
Definition index {A : Type} (l : list A) (i : nat) : M A :=
  match l !! i with Some x => ret x | None => raise IndexError end.

(** [for x in l: body x] *)
Fixpoint for_each {A : Type} (l : list A) (body : A -> M unit) : M unit :=
  match l with
  | [] => ret tt
  | x :: rest => body x ;; for_each rest body
  end.

(** Sorting as SQLite's sorter does it: rows that compare equal stay in
    the order in which the scan delivers them. *)
Fixpoint insert_row {A : Type} (le : A -> A -> bool) (x : A) (l : list A) : list A :=
  match l with
  | [] => [x]
  | y :: l' => if le x y then x :: l else y :: insert_row le x l'
  end.

Definition sort_rows {A : Type} (le : A -> A -> bool) (l : list A) : list A :=
  foldr (insert_row le) [] l.

(** [ORDER BY key DESC] and [ORDER BY key] *)
Definition order_desc {A : Type} (key : A -> Z) (l : list A) : list A :=
  sort_rows (fun a b => key b <=? key a) l.
Definition order_asc {A : Type} (key : A -> Z) (l : list A) : list A :=
  sort_rows (fun a b => key a <=? key b) l.

(** [SELECT COUNT( * ) ... WHERE p] *)
Definition count_where {A : Type} (p : A -> bool) (l : list A) : Z :=
  Z.of_nat (length (List.filter p l)).

(** [SELECT COUNT(DISTINCT user_id) FROM user_activity WHERE p] *)
Definition count_distinct_users (p : Activity.t -> bool) (l : list Activity.t) : Z :=
  Z.of_nat (length (remove_dups (Activity.user_id <$> List.filter p l))).

(** The local calendar day of [datetime.now()]. *)
Definition today (env : Env) : Z := DATE (now env + tz env).

(** ** Monitoring functions *)

Definition log_activity (env : Env) (user_id : Z) (action details : string) : M unit :=
  try_except
    (w ← get;
     db_write (add_activity
       (Activity.mk (activity_seq w + 1) user_id action details (now env))))
    (fun _ => ret tt).

(** [INSERT OR REPLACE INTO daily_metrics]: the row with the same date,
    if any, is deleted and the new row inserted. *)
Definition replace_metric (row : Metric.t) (rows : list Metric.t) : list Metric.t :=
  List.filter (fun r => negb (Metric.date r =? Metric.date row)) rows ++ [row].

Definition update_daily_metrics (env : Env) : M unit :=
  try_except
    (w ← get;
     let today := today env in
     let new_users :=
       count_where (fun u => DATE (User.created u) =? today) (users w) in
     let new_jobs :=
       count_where (fun j => DATE (Job.created j) =? today) (jobs w) in
     let active_users :=
       count_distinct_users (fun a => DATE (Activity.timestamp a) =? today)
                            (user_activity w) in
     db_write (set_daily_metrics
       (replace_metric (Metric.mk today new_users new_jobs active_users))))
    (fun _ => ret tt).

(** The metrics thread and [main]: [update_daily_metrics] is called with
    no argument at each scheduled time (23:59 local) at which the process
    is up, and once at every start of the process.  [clocks] lists the
    environments of these calls in order. *)
Definition run_metrics (clocks : list Env) : M unit :=
  for_each clocks update_daily_metrics.

(** ** Helper functions *)

(** [INSERT OR REPLACE INTO users (user_id, username, role)]: the row with
    the same [user_id], if any, is deleted; the new row takes the column
    defaults for every column that is not listed. *)
Definition replace_user (row : User.t) (rows : list User.t) : list User.t :=
  List.filter (fun r => negb (User.user_id r =? User.user_id row)) rows ++ [row].

Definition save_user (env : Env) (user_id : Z) (username role : string) : M unit :=
  db_write (set_users
    (replace_user (User.mk user_id username role "" "" 0 (now env)))).

Definition create_job (env : Env) (client_id : Z)
    (title description budget : string) : M Z :=
  w ← get;
  let job_id := jobs_seq w + 1 in
  db_write (add_job
    (Job.mk job_id client_id title description budget "open" (now env))) ;;
  ret job_id.

Definition get_jobs : M (list Job.t) :=
  w ← get;
  ret (take 10 (order_desc Job.id
         (List.filter (fun j => String.eqb (Job.status j) "open") (jobs w)))).

(** A [SELECT ... FROM users] reads the table by its primary key
    ([user_id INTEGER PRIMARY KEY] is the rowid): in ascending order of
    [user_id], whatever the order of the inserts. *)
Definition scan_users (w : World) : list User.t :=
  order_asc User.user_id (users w).

Definition get_freelancers : M (list Z) :=
  w ← get;
  ret (User.user_id <$>
         List.filter (fun u => String.eqb (User.role u) "freelancer"
                               && (User.is_banned u =? 0)) (scan_users w)).

(** [if not ADMIN_ID: return False]: [None] and [0] are both falsy. *)
Definition is_admin (env : Env) (user_id : Z) : bool :=
  match ADMIN_ID env with
  | None => false
  | Some a => if a =? 0 then false else user_id =? a
  end.

(** [UPDATE users SET col = v WHERE user_id = ?] *)
Definition update_user (user_id : Z) (f : User.t -> User.t)
    (rows : list User.t) : list User.t :=
  (fun r => if User.user_id r =? user_id then f r else r) <$> rows.

Definition with_skills (v : string) (r : User.t) : User.t :=
  User.mk (User.user_id r) (User.username r) (User.role r) v
          (User.location r) (User.is_banned r) (User.created r).
Definition with_location (v : string) (r : User.t) : User.t :=
  User.mk (User.user_id r) (User.username r) (User.role r) (User.skills r)
          v (User.is_banned r) (User.created r).
Definition with_is_banned (v : Z) (r : User.t) : User.t :=
  User.mk (User.user_id r) (User.username r) (User.role r) (User.skills r)
          (User.location r) v (User.created r).

(** [SELECT ... FROM users WHERE user_id = ?] then [fetchone()] *)
Definition select_user (user_id : Z) (w : World) : option User.t :=
  List.find (fun r => User.user_id r =? user_id) (users w).

(** [message.from_user.username or ""] *)
Definition username_of (m : Message) : string := default "" (from_username m).

(** ** Conversation handlers *)

Definition FREELANCER_BUTTON : string := "👤 I'm a Freelancer".
Definition CLIENT_BUTTON : string := "🧑‍💼 I'm a Client".

Definition start (env : Env) (m : Message) : M unit :=
  let user_id := from_user_id m in
  log_activity env user_id "start_command" "User started bot" ;;
  (if is_admin env user_id
   then send_message env (chat_id m) AdminModeActivated
   else ret tt) ;;
  send_message env (chat_id m) Welcome.

Definition choose_role (env : Env) (m : Message) : M unit :=
  let user_id := from_user_id m in
  let username := username_of m in
  let role := if Py.contains "Freelancer" (text m) then "freelancer" else "client" in
  log_activity env user_id "role_selected" ("Selected role: " +:+ role) ;;
  save_user env user_id username role ;;
  if String.eqb role "freelancer"
  then modify (set_user_state <[user_id := {["step" := "ask_skills"]}]>) ;;
       send_message env (chat_id m) AskSkills
  else modify (set_user_state <[user_id := {["step" := "job_title"]}]>) ;;
       send_message env (chat_id m) AskJobTitle.

Definition handle_skills (env : Env) (m : Message) : M unit :=
  let user_id := from_user_id m in
  let skills := text m in
  log_activity env user_id "set_skills" ("Skills: " +:+ Py.take 50 skills) ;;
  db_write (set_users (update_user user_id (with_skills skills))) ;;
  modify (set_user_state <[user_id := {["step" := "ask_location"]}]>) ;;
  send_message env (chat_id m) AskLocation.

Definition handle_location (env : Env) (m : Message) : M unit :=
  let user_id := from_user_id m in
  let location := text m in
  log_activity env user_id "set_location" ("Location: " +:+ location) ;;
  db_write (set_users (update_user user_id (with_location location))) ;;
  modify (set_user_state (delete user_id)) ;;
  send_message env (chat_id m) ProfileComplete.

Definition handle_job_title (env : Env) (m : Message) : M unit :=
  let user_id := from_user_id m in
  modify (set_user_state
    <[user_id := <["title" := text m]> {["step" := "job_description"]}]>) ;;
  send_message env (chat_id m) AskJobDescription.

Definition handle_job_description (env : Env) (m : Message) : M unit :=
  let user_id := from_user_id m in
  w ← get;
  match user_state w !! user_id with
  | None => raise KeyError
  | Some d =>
      modify (set_user_state
        <[user_id := <["step" := "job_budget"]> (<["description" := text m]> d)]>)
  end ;;
  send_message env (chat_id m) AskBudget.

(** The body of the notification loop: the inner [try]. *)
Definition notify_one (env : Env) (title budget : string) (job_id fid : Z) : M unit :=
  try_except
    (send_message env fid (NewJobAvailable title budget) ;;
     log_activity env fid "job_notification"
       ("Notified about job #" +:+ Py.str job_id))
    (fun _ => ret tt).

(** The block under "Notify freelancers": the outer [try] and the loop. *)
Definition notify_freelancers (env : Env) (title budget : string) (job_id : Z) : M unit :=
  try_except
    (freelancers ← get_freelancers;
     for_each freelancers (notify_one env title budget job_id))
    (fun _ => ret tt).

Definition handle_job_budget (env : Env) (m : Message) : M unit :=
  let user_id := from_user_id m in
  w ← get;
  job_data ← match user_state w !! user_id with
             | None => raise KeyError
             | Some d => ret d
             end;
  title ← getitem job_data "title";
  log_activity env user_id "post_job" ("Job: " +:+ Py.take 30 title +:+ "...") ;;
  description ← getitem job_data "description";
  job_id ← create_job env user_id title description (text m);
  modify (set_user_state (delete user_id)) ;;
  send_message env (chat_id m) (JobPosted title (text m) job_id) ;;
  notify_freelancers env title (text m) job_id.

(** ** Browsing, profile and help *)

Definition list_jobs_command (env : Env) (m : Message) : M unit :=
  log_activity env (from_user_id m) "view_jobs" "Browsed job listings" ;;
  rows ← get_jobs;
  match rows with
  | [] => send_message env (chat_id m) NoJobsAvailable
  | _ => send_message env (chat_id m) (AvailableJobs rows)
  end.

Definition profile_command (env : Env) (m : Message) : M unit :=
  log_activity env (from_user_id m) "view_profile" "Viewed own profile" ;;
  w ← get;
  match select_user (from_user_id m) w with
  | None => send_message env (chat_id m) ProfileNotFound
  | Some row => send_message env (chat_id m) (YourProfile row)
  end.

Definition help_command (env : Env) (m : Message) : M unit :=
  log_activity env (from_user_id m) "view_help" "Viewed help" ;;
  send_message env (chat_id m) HelpText.

(** [str(user_id) == str(ADMIN_ID)]: [str(None)] is no number. *)
Definition get_id_command (env : Env) (m : Message) : M unit :=
  let user_id := from_user_id m in
  send_message env (chat_id m)
    (TelegramInfo user_id (default "No username" (from_username m))) ;;
  match ADMIN_ID env with
  | Some a => if user_id =? a
              then send_message env (chat_id m) (AdminNote user_id)
              else ret tt
  | None => ret tt
  end.

(** ** Admin handlers *)

(** [user_activity ua LEFT JOIN users u ... WHERE u.is_banned=0] *)
Definition join_activity (w : World) : list (Activity.t * User.t) :=
  omap (fun a => match select_user (Activity.user_id a) w with
                 | Some u => if User.is_banned u =? 0 then Some (a, u) else None
                 | None => None
                 end) (user_activity w).

Definition admin_dashboard (env : Env) (m : Message) : M unit :=
  if negb (is_admin env (from_user_id m))
  then send_message env (chat_id m) AdminAccessRequired
  else
    w ← get;
    let total_users := count_where (fun u => User.is_banned u =? 0) (users w) in
    let total_jobs := count_where (fun _ => true) (jobs w) in
    let today := today env in
    let new_users_today :=
      count_where (fun u => (DATE (User.created u) =? today)
                            && (User.is_banned u =? 0)) (users w) in
    let new_jobs_today :=
      count_where (fun j => DATE (Job.created j) =? today) (jobs w) in
    let five_min_ago := now env + tz env - 300 in
    let active_now :=
      count_distinct_users (fun a => five_min_ago <? Activity.timestamp a)
                           (user_activity w) in
    let recent_activities :=
      take 10 (order_desc (fun r => Activity.timestamp (fst r)) (join_activity w)) in
    send_message env (chat_id m)
      (Dashboard total_users total_jobs new_users_today new_jobs_today
                 active_now recent_activities).

Definition admin_users (env : Env) (m : Message) : M unit :=
  if negb (is_admin env (from_user_id m)) then ret tt
  else
    w ← get;
    let rows := take 20 (order_desc User.created
                  (List.filter (fun u => User.is_banned u =? 0) (scan_users w))) in
    match rows with
    | [] => send_message env (chat_id m) NoUsersRegistered
    | _ => send_message env (chat_id m) (RegisteredUsers rows)
    end.

Definition admin_all_jobs (env : Env) (m : Message) : M unit :=
  if negb (is_admin env (from_user_id m)) then ret tt
  else
    w ← get;
    let rows := take 15 (order_desc (fun r => Job.id (fst r))
                  ((fun j => (j, select_user (Job.client_id j) w)) <$> jobs w)) in
    match rows with
    | [] => send_message env (chat_id m) NoJobsPosted
    | _ => send_message env (chat_id m) (AllJobs rows)
    end.

Definition view_user_detail (env : Env) (m : Message) : M unit :=
  if negb (is_admin env (from_user_id m)) then ret tt
  else
    match Py.split_ws (text m) with
    | _ :: arg :: _ =>
        match Py.int arg with
        | None => send_message env (chat_id m) InvalidUserId
        | Some user_id =>
            w ← get;
            match select_user user_id w with
            | None => send_message env (chat_id m) (UserNotFound user_id)
            | Some row =>
                let jobs_posted :=
                  count_where (fun j => Job.client_id j =? user_id) (jobs w) in
                let activities :=
                  take 10 (order_desc Activity.timestamp
                    (List.filter (fun a => Activity.user_id a =? user_id)
                                 (user_activity w))) in
                send_message env (chat_id m)
                  (UserDetails row jobs_posted activities)
            end
        end
    | _ => send_message env (chat_id m) ViewUserUsage
    end.

(** The [UPDATE] runs on the handler's connection and is committed only
    after [log_activity] has run on a connection of its own. *)
Definition handle_ban_unban (env : Env) (m : Message) : M unit :=
  if negb (is_admin env (from_user_id m)) then ret tt
  else
    try_except
      (let parts := Py.split "_"%char (text m) in
       command ← index parts 0;
       arg ← index parts 1;
       user_id ← match Py.int arg with
                 | Some n => ret n
                 | None => raise ValueError
                 end;
       db_execute ;;
       banned_action ←
         (if String.eqb command "/ban"
          then log_activity env user_id "user_banned"
                 ("Banned by admin " +:+ Py.str (from_user_id m)) ;;
               ret (1, "banned")
          else log_activity env user_id "user_unbanned"
                 ("Unbanned by admin " +:+ Py.str (from_user_id m)) ;;
               ret (0, "unbanned"));
       db_commit (set_users (update_user user_id (with_is_banned (fst banned_action)))) ;;
       w ← get;
       let username := match select_user user_id w with
                       | Some row => User.username row
                       | None => "Unknown"
                       end in
       send_message env (chat_id m) (BanDone username user_id (snd banned_action)))
      (fun e => send_message env (chat_id m) (ErrorText e)).

Definition daily_report (env : Env) (m : Message) : M unit :=
  if negb (is_admin env (from_user_id m)) then ret tt
  else
    w ← get;
    let yesterday := DATE (now env + tz env - 86400) in
    match List.find (fun r => Metric.date r =? yesterday) (daily_metrics w) with
    | None => send_message env (chat_id m) (NoDataFor yesterday)
    | Some row => send_message env (chat_id m) (DailyReport row)
    end.

Definition analytics (env : Env) (m : Message) : M unit :=
  if negb (is_admin env (from_user_id m)) then ret tt
  else
    w ← get;
    let seven_days_ago := DATE (now env + tz env - 7 * 86400) in
    let trends := order_asc Metric.date
      (List.filter (fun r => seven_days_ago <=? Metric.date r) (daily_metrics w)) in
    match trends with
    | [] => send_message env (chat_id m) NoAnalytics
    | _ =>
        let total_users := foldr Z.add 0 (Metric.new_users <$> trends) in
        let total_jobs := foldr Z.add 0 (Metric.new_jobs <$> trends) in
        let total_active := foldr Z.add 0 (Metric.active_users <$> trends) in
        send_message env (chat_id m)
          (Analytics trends total_users total_jobs total_active)
    end.

(** ** Broadcast: draft, confirmation token, fan-out *)

(** The [callback_data] of the confirm button. *)
Definition confirm_token (broadcast_text : string) : string :=
  "confirm_broadcast:" +:+ broadcast_text.

Definition broadcast_message (env : Env) (m : Message) : M unit :=
  if negb (is_admin env (from_user_id m)) then ret tt
  else if (length (Py.split_ws (text m)) <? 2)%nat
  then send_message env (chat_id m) BroadcastUsage
  else
    broadcast_text ← index (Py.split1 " "%char (text m)) 1;
    send_message env (chat_id m)
      (BroadcastConfirmation (Py.take 100 broadcast_text)
         (confirm_token broadcast_text) "cancel_broadcast").

(** The delivery loop of the broadcast with its two counters. *)
Fixpoint broadcast_loop (env : Env) (broadcast_text : string) (targets : list Z)
    (sent_count failed_count : Z) : M (Z * Z) :=
  match targets with
  | [] => ret (sent_count, failed_count)
  | user_id :: rest =>
      counts ← try_except
                 (send_message env user_id (Announcement broadcast_text) ;;
                  ret (sent_count + 1, failed_count))
                 (fun _ => ret (sent_count, failed_count + 1));
      broadcast_loop env broadcast_text rest (fst counts) (snd counts)
  end.

(** The confirm branch once [broadcast_text] is read off the token. *)
Definition send_broadcast (env : Env) (call : CallbackQuery)
    (broadcast_text : string) : M unit :=
  edit_message_text env BroadcastSending (call_chat_id call) (call_message_id call) ;;
  w ← get;
  let targets :=
    User.user_id <$> List.filter (fun u => User.is_banned u =? 0) (scan_users w) in
  let total_users := Z.of_nat (length targets) in
  counts ← broadcast_loop env broadcast_text targets 0 0;
  send_message env (call_chat_id call)
    (BroadcastComplete total_users (fst counts) (snd counts)
                       (Py.take 100 broadcast_text)) ;;
  log_activity env (call_from_user_id call) "broadcast_sent"
    ("Sent to " +:+ Py.str (fst counts) +:+ " users. Message: "
     +:+ Py.take 50 broadcast_text).

Definition handle_callback (env : Env) (call : CallbackQuery) : M unit :=
  if String.eqb (call_data call) "cancel_broadcast"
  then edit_message_text env BroadcastCancelled (call_chat_id call) (call_message_id call)
  else if Py.startswith "confirm_broadcast:" (call_data call)
  then
    broadcast_text ← index (Py.split1 ":"%char (call_data call)) 1;
    send_broadcast env call broadcast_text
  else ret tt.

(** ** Fallback *)

Definition handle_unknown (env : Env) (m : Message) : M unit :=
  log_activity env (from_user_id m) "unknown_command" (Py.take 50 (text m)) ;;
  if negb (Py.startswith "/" (text m)) then ret tt
  else send_message env (chat_id m) UnknownCommand.

(** ** Routing of incoming messages

    The library tries the message handlers in the order of their
    registration and runs the first whose filter accepts the message. *)

(** The library's reading of a command: the first word up to an [@],
    without its slash. *)
Definition extract_command (text : string) : option string :=
  if Py.startswith "/" text then
    match Py.split_ws text with
    | first :: _ =>
        match Py.split "@"%char first with
        | String _ name :: _ => Some name
        | _ => Some ""
        end
    | [] => None
    end
  else None.

(** The filter [commands=[...]] *)
Definition is_command (commands : list string) (m : Message) : bool :=
  match extract_command (text m) with
  | Some c => existsb (String.eqb c) commands
  | None => false
  end.

(** The filter [user_state.get(id, {}).get("step") == s] *)
Definition in_step (s : string) (w : World) (m : Message) : bool :=
  match user_state w !! from_user_id m ≫= (.!! "step") with
  | Some s' => String.eqb s' s
  | None => false
  end.

(** The filters of [choose_role] and of [handle_ban_unban] *)
Definition is_role_text (m : Message) : bool :=
  existsb (String.eqb (text m)) [FREELANCER_BUTTON; CLIENT_BUTTON].
Definition is_ban_text (m : Message) : bool :=
  Py.startswith "/ban_" (text m) || Py.startswith "/unban_" (text m).

Definition message_handlers (env : Env)
    : list ((World -> Message -> bool) * (Message -> M unit)) :=
  [ (fun _ => is_command ["start"], start env);
    (fun _ => is_role_text, choose_role env);
    (in_step "ask_skills", handle_skills env);
    (in_step "ask_location", handle_location env);
    (in_step "job_title", handle_job_title env);
    (in_step "job_description", handle_job_description env);
    (in_step "job_budget", handle_job_budget env);
    (fun _ => is_command ["jobs"], list_jobs_command env);
    (fun _ => is_command ["profile"], profile_command env);
    (fun _ => is_command ["help"], help_command env);
    (fun _ => is_command ["getid"], get_id_command env);
    (fun _ => is_command ["dashboard"], admin_dashboard env);
    (fun _ => is_command ["users"], admin_users env);
    (fun _ => is_command ["alljobs"], admin_all_jobs env);
    (fun _ => is_command ["viewuser"], view_user_detail env);
    (fun _ => is_ban_text, handle_ban_unban env);
    (fun _ => is_command ["dailyreport"], daily_report env);
    (fun _ => is_command ["analytics"], analytics env);
    (fun _ => is_command ["broadcast"], broadcast_message env);
    (fun _ _ => true, handle_unknown env) ].

Definition process_message (env : Env) (m : Message) : M unit :=
  fun w =>
    match List.find (fun h => fst h w m) (message_handlers env) with
    | Some h => snd h m w
    | None => (Ok tt, w)
    end.

(** The only callback handler accepts every callback query. *)
Definition process_callback (env : Env) (call : CallbackQuery) : M unit :=
  handle_callback env call.

(** * Specification vocabulary *)

(** ** Frames: relations between the world before and after a handler

    A frame is a preorder on worlds that transport calls, the write lock
    and the conversation map do not leave.  What a handler does to the
    tables is then checked write by write. *)

Class Frame (R : World -> World -> Prop) := {
  frame_refl : forall w, R w w;
  frame_trans : forall w1 w2 w3, R w1 w2 -> R w2 w3 -> R w1 w3;
  frame_attempt : forall a w, R w (add_attempt a w);
  frame_locked : forall b w, R w (set_write_locked b w);
  frame_user_state : forall f w, R w (set_user_state f w)
}.

Definition preserves (R : World -> World -> Prop) {A : Type} (c : M A) : Prop :=
  forall w, R w (snd (c w)).

(** The jobs table is untouched. *)
Definition same_jobs (w w' : World) : Prop := jobs w' = jobs w.

(** The activity log only grows, and every new event satisfies [P]. *)
Definition appends (P : Activity.t -> Prop) (w w' : World) : Prop :=
  exists new, user_activity w' = (user_activity w ++ new)%list /\ Forall P new.

(** The accumulator of [user_id] is absent, or lacks the title or the
    description. *)
Definition lost_accumulator (w : World) (user_id : Z) : Prop :=
  match user_state w !! user_id with
  | None => True
  | Some d => d !! "title" = None \/ d !! "description" = None
  end.

(** The [daily_metrics] rows of one date. *)
Definition metrics_on (d : Z) (w : World) : list Metric.t :=
  List.filter (fun r => Metric.date r =? d) (daily_metrics w).

(** The row that the aggregator computes in world [w]. *)
Definition todays_metric (env : Env) (w : World) : Metric.t :=
  Metric.mk (today env)
    (count_where (fun u => DATE (User.created u) =? today env) (users w))
    (count_where (fun j => DATE (Job.created j) =? today env) (jobs w))
    (count_distinct_users (fun a => DATE (Activity.timestamp a) =? today env)
                          (user_activity w)).

(** The world after a series of transport calls. *)
Definition add_attempts (l : list Attempt) (w : World) : World :=
  foldl (fun w a => add_attempt a w) w l.

(** Accepted and refused transport calls of a stretch of the trace. *)
Definition sent_in (l : list Attempt) : Z :=
  Z.of_nat (length (List.filter delivered l)).
Definition failed_in (l : list Attempt) : Z :=
  Z.of_nat (length (List.filter (fun a => negb (delivered a)) l)).

(** The delivery counts that a stretch of the trace reports to a chat:
    the triples (total, succeeded, failed) of its "broadcast complete"
    messages. *)
Definition reported_counts (l : list Attempt) : list (Z * Z * Z) :=
  omap (fun a => match body a with
                 | BroadcastComplete total sent failed _ => Some (total, sent, failed)
                 | _ => None
                 end) l.

(** The freelancers a job notification goes to. *)
Definition freelancers_of (w : World) : list Z :=
  User.user_id <$>
    List.filter (fun u => String.eqb (User.role u) "freelancer"
                          && (User.is_banned u =? 0)) (scan_users w).

(** The users a broadcast goes to. *)
Definition broadcast_targets (w : World) : list Z :=
  User.user_id <$> List.filter (fun u => User.is_banned u =? 0) (scan_users w).

(** ** Concrete situations used in the examples below *)

Module Scenario.

(** A transport that accepts every call. *)
Definition env (admin : option Z) : Env :=
  {| ADMIN_ID := admin; now := 1700000000; tz := 28800;
     deliver := fun _ _ => true |}.

(** A transport that refuses every call addressed to [chat]. *)
Definition env_blocked (admin : option Z) (chat : Z) : Env :=
  {| ADMIN_ID := admin; now := 1700000000; tz := 28800;
     deliver := fun _ c => negb (c =? chat) |}.

Definition world (us : list User.t) (st : gmap Z (gmap string string)) : World :=
  {| users := us; jobs := []; user_activity := []; daily_metrics := [];
     jobs_seq := 0; activity_seq := 0; write_locked := false;
     user_state := st; trace := [] |}.

Definition message (user_id : Z) (txt : string) : Message :=
  {| from_user_id := user_id; from_username := Some "ana";
     chat_id := user_id; text := txt |}.

Definition callback (user_id : Z) (data : string) : CallbackQuery :=
  {| call_from_user_id := user_id; call_data := data;
     call_chat_id := user_id; call_message_id := 42 |}.

(** Registered users: a freelancer with a complete profile, a client, a
    second freelancer. *)
Definition ana : User.t :=
  User.mk 7 "ana" "freelancer" "Web Design" "Manila" 0 1690000000.
Definition ben : User.t :=
  User.mk 3 "ben" "client" "" "" 0 1690000000.
Definition cy : User.t :=
  User.mk 4 "cy" "freelancer" "Writing" "Cebu" 0 1690000000.

End Scenario.

(** ** Further frames and invariants *)

(** The keys of the [users] table, in storage order. *)
Definition user_ids (w : World) : list Z := User.user_id <$> users w.

(** The primary key of [users] stays a key. *)
Definition keeps_user_key (w w' : World) : Prop :=
  NoDup (user_ids w) -> NoDup (user_ids w').

(** No user row is deleted. *)
Definition keeps_user_ids (w w' : World) : Prop :=
  forall user_id, user_id ∈ user_ids w -> user_id ∈ user_ids w'.

(** The rows of all users but [sender] are as they were. *)
Definition others_kept (sender : Z) (w w' : World) : Prop :=
  forall user_id, user_id <> sender -> select_user user_id w' = select_user user_id w.

(** The jobs table only grows, and every new row satisfies [P]. *)
Definition appends_jobs (P : Job.t -> Prop) (w w' : World) : Prop :=
  exists new, jobs w' = (jobs w ++ new)%list /\ Forall P new.

(** The four tables and their counters are as they were. *)
Definition same_tables (w w' : World) : Prop :=
  users w' = users w /\ jobs w' = jobs w
  /\ user_activity w' = user_activity w /\ daily_metrics w' = daily_metrics w
  /\ jobs_seq w' = jobs_seq w /\ activity_seq w' = activity_seq w.

(** The dates of the [daily_metrics] rows, in storage order. *)
Definition metric_dates (w : World) : list Z := Metric.date <$> daily_metrics w.

(** The open jobs of the store. *)
Definition open_jobs (w : World) : list Job.t :=
  List.filter (fun j => String.eqb (Job.status j) "open") (jobs w).

(** ** The polling loop

    [bot.infinity_polling] hands each incoming update to its handler, one
    after the other; an exception of a handler is logged by the library
    and the loop goes on with the world as the handler left it.  A run of
    the aggregator (from the metrics thread or from [main]) falls between
    two handlers. *)
Inductive Update :=
  | IncomingMessage (m : Message)
  | IncomingCallback (call : CallbackQuery)
  | MetricsRun.

Definition process_update (env : Env) (u : Update) : M unit :=
  match u with
  | IncomingMessage m => process_message env m
  | IncomingCallback call => process_callback env call
  | MetricsRun => update_daily_metrics env
  end.

(** The world after a series of updates, each with the environment (clock
    and transport) it is handled in. *)
Definition run (events : list (Env * Update)) (w : World) : World :=
  foldl (fun w e => snd (process_update (fst e) (snd e) w)) w events.

(** Everything is as it was, up to the activity log, its counter and the
    trace of transport calls. *)
Definition same_but_log (w w' : World) : Prop :=
  users w' = users w /\ jobs w' = jobs w /\ daily_metrics w' = daily_metrics w
  /\ jobs_seq w' = jobs_seq w /\ user_state w' = user_state w
  /\ write_locked w' = write_locked w.

(** The commands that have a handler. *)
Definition known_commands : list string :=
  ["start"; "jobs"; "profile"; "help"; "getid"; "dashboard"; "users";
   "alljobs"; "viewuser"; "dailyreport"; "analytics"; "broadcast"].

(** The primary key of [daily_metrics] stays a key. *)
Definition keeps_metric_key (w w' : World) : Prop :=
  NoDup (metric_dates w) -> NoDup (metric_dates w').

(** The users with an event on the current local day. *)
Definition active_today (env : Env) (w : World) : list Z :=
  Activity.user_id <$>
    List.filter (fun a => DATE (Activity.timestamp a) =? today env)
                (user_activity w).

(** The AUTOINCREMENT ids are in order: no id of a table exceeds the
    table's counter, and no id occurs twice. *)
Definition fresh_ids (w : World) : Prop :=
  Forall (fun j => Job.id j <= jobs_seq w) (jobs w)
  /\ NoDup (Job.id <$> jobs w)
  /\ Forall (fun a => Activity.id a <= activity_seq w) (user_activity w)
  /\ NoDup (Activity.id <$> user_activity w).

Definition keeps_fresh_ids (w w' : World) : Prop := fresh_ids w -> fresh_ids w'.

(** Every character of [s] satisfies [p]. *)
Fixpoint all_chars (p : ascii -> bool) (s : string) : bool :=
  match s with
  | EmptyString => true
  | String c s' => p c && all_chars p s'
  end.
(** * Reasoning about handlers *)

Section FrameRules.
Context (R : World -> World -> Prop) `{!Frame R}.

Lemma preserves_ret {A : Type} (a : A) : preserves R (ret a).
Proof. intros w. apply frame_refl. Qed.

Lemma preserves_raise {A : Type} (e : Exn) : preserves R (@raise A e).
Proof. intros w. apply frame_refl. Qed.

Lemma preserves_get : preserves R get.
Proof. intros w. apply frame_refl. Qed.

Lemma preserves_bind {A B : Type} (m : M A) (k : A -> M B) :
  preserves R m -> (forall a, preserves R (k a)) -> preserves R (bind m k).
Proof.
  intros Hm Hk w. unfold bind. specialize (Hm w).
  destruct (m w) as [[a|e] w']; simpl in *; [|exact Hm].
  eapply frame_trans; [exact Hm | apply Hk].
Qed.

Lemma preserves_try_except {A : Type} (m : M A) (h : Exn -> M A) :
  preserves R m -> (forall e, preserves R (h e)) -> preserves R (try_except m h).
Proof.
  intros Hm Hh w. unfold try_except. specialize (Hm w).
  destruct (m w) as [[a|e] w']; simpl in *; [exact Hm|].
  eapply frame_trans; [exact Hm | apply Hh].
Qed.

Lemma preserves_modify (f : World -> World) :
  (forall w, R w (f w)) -> preserves R (modify f).
Proof. intros Hf w. apply Hf. Qed.

Lemma preserves_db_write (f : World -> World) :
  (forall w, R w (f w)) -> preserves R (db_write f).
Proof.
  intros Hf w. unfold db_write. destruct (write_locked w); simpl;
    [apply frame_refl | apply Hf].
Qed.

Lemma preserves_db_execute : preserves R db_execute.
Proof.
  intros w. unfold db_execute. destruct (write_locked w); simpl;
    [apply frame_refl | apply frame_locked].
Qed.

Lemma preserves_db_commit (f : World -> World) :
  (forall w, R w (f w)) -> preserves R (db_commit f).
Proof.
  intros Hf w. unfold db_commit. simpl.
  eapply frame_trans; [apply Hf | apply frame_locked].
Qed.

Lemma preserves_send_message env chat r : preserves R (send_message env chat r).
Proof. intros w. apply frame_attempt. Qed.

Lemma preserves_edit_message_text env r chat mid :
  preserves R (edit_message_text env r chat mid).
Proof. intros w. apply frame_attempt. Qed.

Lemma preserves_index {A : Type} (l : list A) (i : nat) : preserves R (index l i).
Proof. unfold index. destruct (l !! i); [apply preserves_ret | apply preserves_raise]. Qed.

Lemma preserves_getitem {V : Type} (d : gmap string V) (k : string) :
  preserves R (getitem d k).
Proof. unfold getitem. destruct (d !! k); [apply preserves_ret | apply preserves_raise]. Qed.

Lemma preserves_for_each {A : Type} (l : list A) (body : A -> M unit) :
  (forall x, preserves R (body x)) -> preserves R (for_each l body).
Proof.
  intros Hb. induction l as [|x l IH]; simpl.
  - apply preserves_ret.
  - apply preserves_bind; [apply Hb | intros _; exact IH].
Qed.

Lemma preserves_log_activity env user_id action details :
  (forall i ts w,
      R w (add_activity (Activity.mk i user_id action details ts) w)) ->
  preserves R (log_activity env user_id action details).
Proof.
  intros Hrow. unfold log_activity. apply preserves_try_except.
  - apply preserves_bind; [apply preserves_get|].
    intros w0. apply preserves_db_write. intros w. apply Hrow.
  - intros _. apply preserves_ret.
Qed.

Lemma preserves_get_jobs : preserves R get_jobs.
Proof. intros w. apply frame_refl. Qed.

Lemma preserves_get_freelancers : preserves R get_freelancers.
Proof. intros w. apply frame_refl. Qed.

Lemma preserves_broadcast_loop env broadcast_text targets sent_count failed_count :
  preserves R (broadcast_loop env broadcast_text targets sent_count failed_count).
Proof.
  revert sent_count failed_count.
  induction targets as [|u rest IH]; intros sent_count failed_count; simpl.
  - apply preserves_ret.
  - apply preserves_bind; [|intros counts; apply IH].
    apply preserves_try_except.
    + apply preserves_bind; [apply preserves_send_message|].
      intros _. apply preserves_ret.
    + intros _. apply preserves_ret.
Qed.
End FrameRules.

(** One step of a frame proof: the rule for the head of the computation. *)
Ltac frame_step :=
  lazymatch goal with
  | |- preserves _ (mbind _ _) => unfold mbind, M_bind
  | |- preserves _ (bind _ _) => apply preserves_bind; [exact _ | | intros ?]
  | |- preserves _ (try_except _ _) =>
      apply preserves_try_except; [exact _ | | intros ?]
  | |- preserves _ (ret _) => apply preserves_ret; exact _
  | |- preserves _ (raise _) => apply preserves_raise; exact _
  | |- preserves _ get => apply preserves_get; exact _
  | |- preserves _ (send_message _ _ _) => apply preserves_send_message; exact _
  | |- preserves _ (edit_message_text _ _ _ _) =>
      apply preserves_edit_message_text; exact _
  | |- preserves _ (index _ _) => apply preserves_index; exact _
  | |- preserves _ (getitem _ _) => apply preserves_getitem; exact _
  | |- preserves _ get_jobs => apply preserves_get_jobs; exact _
  | |- preserves _ get_freelancers => apply preserves_get_freelancers; exact _
  | |- preserves _ (broadcast_loop _ _ _ _ _) =>
      apply preserves_broadcast_loop; exact _
  | |- preserves _ (for_each _ _) =>
      apply preserves_for_each; [exact _ | intros ?]
  | |- preserves _ db_execute => apply preserves_db_execute; exact _
  | |- preserves _ (modify (set_user_state _)) =>
      apply preserves_modify; intros ?; apply frame_user_state
  | |- preserves _ (match ?x with _ => _ end) => destruct x
  | |- preserves _ (let _ := _ in _) => cbv zeta
  end.

(** ** What [log_activity] does: it never raises, and appends unless the
    database is locked by another connection. *)
Lemma log_activity_eq env user_id action details w :
  log_activity env user_id action details w =
  (Ok tt,
   if write_locked w then w
   else add_activity
          (Activity.mk (activity_seq w + 1) user_id action details (now env)) w).
Proof.
  unfold log_activity, try_except, mbind, M_bind, bind, get, db_write, ret.
  destruct (write_locked w); reflexivity.
Qed.

(** ** The frame of the jobs table *)

#[global] Instance same_jobs_frame : Frame same_jobs.
Proof.
  split; unfold same_jobs; intros; try reflexivity. congruence.
Qed.

Ltac frame_jobs :=
  repeat first
    [ frame_step
    | apply preserves_log_activity; [exact _ | intros; reflexivity]
    | apply preserves_db_write; [exact _ | intros; reflexivity]
    | apply preserves_db_commit; [exact _ | intros; reflexivity] ].

(** Every message handler but [handle_job_budget] leaves the jobs table
    as it is. *)
Lemma handlers_same_jobs env m :
  Forall (fun h => snd h m = handle_job_budget env m
                   \/ preserves same_jobs (snd h m))
         (message_handlers env).
Proof.
  unfold message_handlers.
  repeat (apply Forall_cons; split;
          [first [ left; reflexivity
                 | right; cbn [snd];
                   unfold start, choose_role, save_user, handle_skills,
                     handle_location, handle_job_title, handle_job_description,
                     list_jobs_command, profile_command, help_command,
                     get_id_command, admin_dashboard, admin_users,
                     admin_all_jobs, view_user_detail, handle_ban_unban,
                     daily_report, analytics, broadcast_message, handle_unknown;
                   frame_jobs ] |]).
  apply Forall_nil. exact I.
Qed.

(** ** The budget step without its accumulator *)

Lemma handle_job_budget_lost env m w :
  lost_accumulator w (from_user_id m) ->
  fst (handle_job_budget env m w) = Raise KeyError
  /\ jobs (snd (handle_job_budget env m w)) = jobs w
  /\ trace (snd (handle_job_budget env m w)) = trace w.
Proof.
  unfold lost_accumulator, handle_job_budget, mbind, M_bind, bind, get.
  destruct (user_state w !! from_user_id m) as [d|]; [|intros _; now cbn].
  intros Hlost. cbn. unfold getitem.
  destruct (d !! "title") as [title|] eqn:Ht; [|now cbn].
  destruct Hlost as [Hlost|Hlost]; [discriminate|]. rewrite Hlost.
  cbn. rewrite log_activity_eq. cbn.
  destruct (write_locked w); now cbn.
Qed.

Lemma process_message_find env m w :
  (exists f h, In (f, h) (message_handlers env) /\ f w m = true
               /\ process_message env m w = h m w)
  \/ process_message env m w = (Ok tt, w).
Proof.
  unfold process_message.
  destruct (List.find _ _) as [[f h]|] eqn:Hfind; [left|right; reflexivity].
  apply List.find_some in Hfind as [Hin Hf]. exists f, h. auto.
Qed.

Lemma process_message_lost_same_jobs env m w :
  lost_accumulator w (from_user_id m) ->
  jobs (snd (process_message env m w)) = jobs w.
Proof.
  intros Hlost.
  destruct (process_message_find env m w) as [(f & h & Hin & _ & ->)| ->];
    [|reflexivity].
  pose proof (handlers_same_jobs env m) as Hall.
  rewrite Forall_forall in Hall.
  destruct (Hall (f, h)) as [Hb|Hp].
  - now apply list_elem_of_In.
  - cbn in Hb. rewrite Hb. now apply handle_job_budget_lost.
  - apply Hp.
Qed.

(** *** Routing facts *)

Lemma startswith_cons a p c s :
  Py.startswith (String a p) (String c s) =
  if ascii_dec a c then Py.startswith p s else false.
Proof. reflexivity. Qed.

Lemma startswith_empty s : Py.startswith "" s = true.
Proof. now destruct s. Qed.

Lemma startswith_slash_ban (s : string) :
  Py.startswith "/" s = false ->
  Py.startswith "/ban_" s = false /\ Py.startswith "/unban_" s = false.
Proof.
  destruct s as [|c s]; [now cbn|]. rewrite !startswith_cons.
  destruct (ascii_dec "/" c); [|now auto].
  now rewrite startswith_empty.
Qed.

Lemma plain_text_no_command commands m :
  Py.startswith "/" (text m) = false -> is_command commands m = false.
Proof. intros H. unfold is_command, extract_command. now rewrite H. Qed.

Lemma plain_text_no_ban m :
  Py.startswith "/" (text m) = false -> is_ban_text m = false.
Proof.
  intros H. unfold is_ban_text.
  destruct (startswith_slash_ban _ H) as [-> ->]. reflexivity.
Qed.

Lemma no_state_no_step s w m :
  user_state w !! from_user_id m = None -> in_step s w m = false.
Proof. intros H. unfold in_step. now rewrite H. Qed.

Lemma in_step_unique s s' w m :
  in_step s w m = true -> s <> s' -> in_step s' w m = false.
Proof.
  unfold in_step. destruct (_ ≫= _) as [s0|]; [|discriminate].
  intros H%String.eqb_eq Hne. subst s0.
  now apply String.eqb_neq.
Qed.

(** Plain text from a user without conversation state reaches the
    fallback. *)
Lemma process_message_plain_text env m w :
  user_state w !! from_user_id m = None ->
  Py.startswith "/" (text m) = false ->
  is_role_text m = false ->
  process_message env m w = handle_unknown env m w.
Proof.
  intros Hnone Hplain Hrole.
  unfold process_message, message_handlers. cbn [List.find fst snd].
  rewrite !plain_text_no_command, !no_state_no_step, Hrole,
    plain_text_no_ban by assumption.
  reflexivity.
Qed.

(** A user at the budget step reaches [handle_job_budget], unless the
    text is [/start] or a role button. *)
Lemma process_message_budget_step env m w :
  in_step "job_budget" w m = true ->
  is_command ["start"] m = false ->
  is_role_text m = false ->
  process_message env m w = handle_job_budget env m w.
Proof.
  intros Hstep Hstart Hrole.
  unfold process_message, message_handlers. cbn [List.find fst snd].
  rewrite Hstart, Hrole, Hstep.
  rewrite !(in_step_unique "job_budget" _ w m Hstep) by discriminate.
  reflexivity.
Qed.

Lemma handle_unknown_plain_text env m w :
  Py.startswith "/" (text m) = false ->
  fst (handle_unknown env m w) = Ok tt
  /\ trace (snd (handle_unknown env m w)) = trace w.
Proof.
  intros Hplain. unfold handle_unknown, mbind, M_bind, bind.
  rewrite log_activity_eq, Hplain. cbn.
  destruct (write_locked w); now cbn.
Qed.

(** The fallback logs the text it does not answer, when the log can be
    written. *)
Lemma handle_unknown_plain_text_log env m w :
  Py.startswith "/" (text m) = false ->
  user_activity (snd (handle_unknown env m w))
  = (user_activity w ++
       if write_locked w then []
       else [Activity.mk (activity_seq w + 1) (from_user_id m)
               "unknown_command" (Py.take 50 (text m)) (now env)])%list.
Proof.
  intros Hplain. unfold handle_unknown, mbind, M_bind, bind.
  rewrite log_activity_eq, Hplain. cbn.
  destruct (write_locked w); cbn; [now rewrite app_nil_r | reflexivity].
Qed.

(** ** C4: the budget step without its accumulator *)

(** C4, as stated, fails: after a restart the conversation map is empty,
    the budget text of user 3 is routed to the fallback, which sends
    nothing: no job is created, and the user is told nothing at all. *)
Lemma budget_after_restart_is_ignored :
  let r := process_message (Scenario.env None) (Scenario.message 3 "$50")
             (Scenario.world [Scenario.ben] ∅) in
  fst r = Ok tt /\ jobs (snd r) = [] /\ trace (snd r) = [].
Proof. vm_compute. repeat split; reflexivity. Qed.

(** The same with an accumulator at the budget step that has lost its
    title: the handler raises [KeyError] and sends nothing. *)
Example budget_without_title_raises :
  let r := process_message (Scenario.env None) (Scenario.message 3 "$50")
             (Scenario.world [Scenario.ben] {[3 := {["step" := "job_budget"]}]}) in
  fst r = Raise KeyError /\ jobs (snd r) = [] /\ trace (snd r) = [].
Proof. vm_compute. repeat split; reflexivity. Qed.

(** C4 (amended): when the accumulator of the sender is absent, or lacks
    the title or the description, processing the message creates no job.
    The user is not told to restart.  At the budget step (the text being
    neither [/start] nor a role button) the handler raises [KeyError] and
    makes no transport call; with no accumulator at all, plain text
    reaches the fallback, which returns normally, makes no transport call
    either, and logs the first 50 characters of the text as an unknown
    command when the log can be written. *)
Theorem lost_accumulator_creates_no_job env m w :
  lost_accumulator w (from_user_id m) ->
  jobs (snd (process_message env m w)) = jobs w
  /\ (in_step "job_budget" w m = true ->
      is_command ["start"] m = false -> is_role_text m = false ->
      fst (process_message env m w) = Raise KeyError
      /\ trace (snd (process_message env m w)) = trace w)
  /\ (user_state w !! from_user_id m = None ->
      Py.startswith "/" (text m) = false -> is_role_text m = false ->
      fst (process_message env m w) = Ok tt
      /\ trace (snd (process_message env m w)) = trace w
      /\ user_activity (snd (process_message env m w))
         = (user_activity w ++
              if write_locked w then []
              else [Activity.mk (activity_seq w + 1) (from_user_id m)
                      "unknown_command" (Py.take 50 (text m)) (now env)])%list).
Proof.
  intros Hlost. split; [|split].
  - now apply process_message_lost_same_jobs.
  - intros Hstep Hstart Hrole.
    rewrite process_message_budget_step by assumption.
    destruct (handle_job_budget_lost env m w Hlost) as (Hr & _ & Ht). auto.
  - intros Hnone Hplain Hrole.
    rewrite process_message_plain_text by assumption.
    destruct (handle_unknown_plain_text env m w Hplain) as (Hok & Htrace).
    repeat apply conj; [exact Hok | exact Htrace |].
    now apply handle_unknown_plain_text_log.
Qed.

Lemma lost_accumulator_creates_no_job_witness :
  lost_accumulator (Scenario.world [Scenario.ben] ∅) 3
  /\ jobs (snd (process_message (Scenario.env None) (Scenario.message 3 "$50")
                  (Scenario.world [Scenario.ben] ∅))) = []
  /\ fst (process_message (Scenario.env None) (Scenario.message 3 "$50")
            (Scenario.world [Scenario.ben] ∅)) = Ok tt.
Proof.
  assert (H : lost_accumulator (Scenario.world [Scenario.ben] ∅) 3)
    by (vm_compute; exact I).
  split; [exact H|].
  destruct (lost_accumulator_creates_no_job (Scenario.env None)
              (Scenario.message 3 "$50") (Scenario.world [Scenario.ben] ∅) H)
    as (Hjobs & _ & Hplain).
  split; [exact Hjobs|].
  destruct Hplain as (Hok & _); [reflexivity | reflexivity | reflexivity |].
  exact Hok.
Defined.

(** ** C1: [save_user] replaces the whole row *)

Lemma find_replace_user row rows :
  List.find (fun r => User.user_id r =? User.user_id row) (replace_user row rows)
  = Some row.
Proof.
  unfold replace_user. induction rows as [|r rows IH]; cbn.
  - now rewrite Z.eqb_refl.
  - destruct (User.user_id r =? User.user_id row) eqn:E; cbn; [exact IH|].
    now rewrite E.
Qed.

(** After [save_user] the row of the user holds the column defaults,
    whatever it held before. *)
Lemma save_user_resets_row env user_id username role w :
  write_locked w = false ->
  select_user user_id (snd (save_user env user_id username role w))
  = Some (User.mk user_id username role "" "" 0 (now env)).
Proof.
  intros Hfree. unfold save_user, db_write. rewrite Hfree. cbn.
  unfold select_user. cbn.
  apply (find_replace_user (User.mk user_id username role "" "" 0 (now env))).
Qed.

(** C1, on the code: user 7 has skills and a location stored; the same
    user presses a role button again.  The stored row keeps neither the
    skills nor the location (nor the creation time), for either button. *)
Theorem choose_role_wipes_profile :
  let w := Scenario.world [Scenario.ana] ∅ in
  select_user 7 w = Some (User.mk 7 "ana" "freelancer" "Web Design" "Manila" 0 1690000000)
  /\ select_user 7 (snd (process_message (Scenario.env None)
                           (Scenario.message 7 CLIENT_BUTTON) w))
     = Some (User.mk 7 "ana" "client" "" "" 0 1700000000)
  /\ select_user 7 (snd (process_message (Scenario.env None)
                           (Scenario.message 7 FREELANCER_BUTTON) w))
     = Some (User.mk 7 "ana" "freelancer" "" "" 0 1700000000).
Proof. vm_compute. repeat split; reflexivity. Qed.

(** The same replacement lifts a ban: a banned user who presses a role
    button is listed among the freelancers again. *)
Example choose_role_lifts_ban :
  let banned := with_is_banned 1 Scenario.ana in
  let w := Scenario.world [banned] ∅ in
  freelancers_of w = []
  /\ freelancers_of (snd (process_message (Scenario.env None)
                            (Scenario.message 7 FREELANCER_BUTTON) w)) = [7].
Proof. vm_compute. split; reflexivity. Qed.

(** ** C2: the admin guard *)

(** Every admin command is a no-op for a caller who is not the admin;
    [/dashboard] alone answers, with a refusal. *)
Lemma admin_commands_guarded env m w :
  is_admin env (from_user_id m) = false ->
  admin_users env m w = (Ok tt, w)
  /\ admin_all_jobs env m w = (Ok tt, w)
  /\ view_user_detail env m w = (Ok tt, w)
  /\ handle_ban_unban env m w = (Ok tt, w)
  /\ daily_report env m w = (Ok tt, w)
  /\ analytics env m w = (Ok tt, w)
  /\ broadcast_message env m w = (Ok tt, w)
  /\ admin_dashboard env m w = send_message env (chat_id m) AdminAccessRequired w.
Proof.
  intros H.
  unfold admin_users, admin_all_jobs, view_user_detail, handle_ban_unban,
    daily_report, analytics, broadcast_message, admin_dashboard.
  rewrite H. cbn. repeat split; reflexivity.
Qed.

Lemma is_admin_unconfigured now tz deliver user_id :
  is_admin {| ADMIN_ID := None; now := now; tz := tz; deliver := deliver |} user_id
  = false.
Proof. reflexivity. Qed.

(** C2, on the code: no admin id is configured and user 5 answers with
    the confirm token.  The announcement goes out to the registered user,
    the report goes to user 5, and the broadcast is logged. *)
Theorem confirm_broadcast_needs_no_admin :
  let env := Scenario.env None in
  let r := process_callback env (Scenario.callback 5 "confirm_broadcast:hi")
             (Scenario.world [Scenario.ana] ∅) in
  is_admin env 5 = false
  /\ fst r = Ok tt
  /\ trace (snd r) =
       [ {| to := 5; edited := Some 42; body := BroadcastSending; delivered := true |};
         {| to := 7; edited := None; body := Announcement "hi"; delivered := true |};
         {| to := 5; edited := None; body := BroadcastComplete 1 1 0 "hi";
            delivered := true |} ]
  /\ Activity.action <$> user_activity (snd r) = ["broadcast_sent"].
Proof. vm_compute. repeat split; reflexivity. Qed.

(** ** C3: the activity log of the conversation steps *)

(** [handle_job_title] and [handle_job_description] never write to the
    activity log. *)
Lemma job_title_logs_nothing env m w :
  user_activity (snd (handle_job_title env m w)) = user_activity w.
Proof. reflexivity. Qed.

Lemma job_description_logs_nothing env m w :
  user_activity (snd (handle_job_description env m w)) = user_activity w.
Proof.
  unfold handle_job_description, mbind, M_bind, bind, get.
  destruct (user_state w !! from_user_id m); reflexivity.
Qed.

(** C3, on the code: user 3 is asked for a job title and sends it, then
    sends the description.  Both steps succeed and advance the
    conversation; neither appends an event. *)
Theorem job_title_and_description_log_nothing :
  let env := Scenario.env None in
  let w := Scenario.world [Scenario.ben] {[3 := {["step" := "job_title"]}]} in
  let r1 := process_message env (Scenario.message 3 "Logo design") w in
  let r2 := process_message env (Scenario.message 3 "Need a logo") (snd r1) in
  fst r1 = Ok tt
  /\ user_state (snd r1) !! 3 ≫= (.!! "step") = Some "job_description"
  /\ user_activity (snd r1) = []
  /\ fst r2 = Ok tt
  /\ user_state (snd r2) !! 3 ≫= (.!! "step") = Some "job_budget"
  /\ user_activity (snd r2) = [].
Proof. vm_compute. repeat split; reflexivity. Qed.

(** The other four steps do append their event. *)
Example other_steps_log_one_event :
  let env := Scenario.env None in
  let w := Scenario.world [] ∅ in
  let r1 := process_message env (Scenario.message 7 FREELANCER_BUTTON) w in
  let r2 := process_message env (Scenario.message 7 "Web Design") (snd r1) in
  let r3 := process_message env (Scenario.message 7 "Manila") (snd r2) in
  Activity.action <$> user_activity (snd r3)
  = ["role_selected"; "set_skills"; "set_location"].
Proof. vm_compute. reflexivity. Qed.

(** A failed append is swallowed: [log_activity] returns normally and
    leaves the world as it is. *)
Lemma log_activity_failure_swallowed env user_id action details w :
  write_locked w = true ->
  log_activity env user_id action details w = (Ok tt, w).
Proof. intros H. now rewrite log_activity_eq, H. Qed.

(** ** C10: banning an id that has no row *)

Lemma update_user_absent user_id f rows :
  List.find (fun r => User.user_id r =? user_id) rows = None ->
  update_user user_id f rows = rows.
Proof.
  unfold update_user. induction rows as [|r rows IH]; cbn; [reflexivity|].
  destruct (User.user_id r =? user_id); [discriminate|].
  intros H. now rewrite IH.
Qed.

(** The admin bans or unbans an id without a row, no other connection
    holds the write lock, and the transport accepts the answer: the users
    table is unchanged, the admin is told that the user "Unknown" was
    banned or unbanned, and the activity log is unchanged too.  The event
    is lost because [log_activity] writes through a connection of its own
    while the handler's [UPDATE] is not yet committed. *)
Lemma handle_ban_unban_unknown_user env m w command arg rest user_id :
  is_admin env (from_user_id m) = true ->
  write_locked w = false ->
  deliver env (length (trace w)) (chat_id m) = true ->
  Py.split "_"%char (text m) = command :: arg :: rest ->
  Py.int arg = Some user_id ->
  select_user user_id w = None ->
  let r := handle_ban_unban env m w in
  let action := if String.eqb command "/ban" then "banned" else "unbanned" in
  fst r = Ok tt
  /\ users (snd r) = users w
  /\ user_activity (snd r) = user_activity w
  /\ trace (snd r) =
       (trace w ++ [ {| to := chat_id m; edited := None;
                        body := BanDone "Unknown" user_id action;
                        delivered := true |} ])%list.
Proof.
  intros Hadmin Hfree Hsend Hsplit Hint Hnone.
  unfold handle_ban_unban. rewrite Hadmin, Hsplit. cbn [negb].
  unfold try_except, mbind, M_bind, bind, index, db_execute. cbn [lookup list_lookup].
  cbn. rewrite Hint. unfold ret. cbn. rewrite Hfree. cbn.
  unfold select_user in Hnone.
  destruct (String.eqb command "/ban"); cbn -[update_user];
    rewrite log_activity_eq; cbn -[update_user];
    rewrite (update_user_absent _ _ _ Hnone), Hnone;
    unfold send_message; cbn; rewrite Hsend; cbn;
    repeat split; try reflexivity; apply (update_user_absent _ _ _ Hnone).
Qed.

(** C10, on the code: the admin (id 1) bans the id 999, which has no
    row.  The users table is unchanged and the admin is told that the
    ban is done, but no event is appended for 999; likewise for unban. *)
Theorem ban_unknown_user_logs_nothing :
  let env := Scenario.env (Some 1) in
  let w := Scenario.world [Scenario.ben] ∅ in
  let r := process_message env (Scenario.message 1 "/ban_999") w in
  let r' := process_message env (Scenario.message 1 "/unban_999") w in
  fst r = Ok tt
  /\ users (snd r) = [Scenario.ben]
  /\ body <$> trace (snd r) = [BanDone "Unknown" 999 "banned"]
  /\ user_activity (snd r) = []
  /\ fst r' = Ok tt
  /\ body <$> trace (snd r') = [BanDone "Unknown" 999 "unbanned"]
  /\ user_activity (snd r') = [].
Proof. vm_compute. repeat split; reflexivity. Qed.

(** The event is lost for an existing user as well: the ban takes effect
    and leaves no trace in the log. *)
Example ban_existing_user_logs_nothing :
  let env := Scenario.env (Some 1) in
  let r := process_message env (Scenario.message 1 "/ban_7")
             (Scenario.world [Scenario.ana] ∅) in
  User.is_banned <$> users (snd r) = [1] /\ user_activity (snd r) = [].
Proof. vm_compute. split; reflexivity. Qed.

(** ** C6 and C9: the metrics aggregator *)

Lemma update_daily_metrics_eq env w :
  update_daily_metrics env w =
  (Ok tt,
   if write_locked w then w
   else set_daily_metrics (replace_metric (todays_metric env w)) w).
Proof.
  unfold update_daily_metrics, try_except, mbind, M_bind, bind, get, db_write.
  cbn. destruct (write_locked w); reflexivity.
Qed.

Lemma filter_replace_metric_other row rows d :
  Metric.date row <> d ->
  List.filter (fun r => Metric.date r =? d) (replace_metric row rows)
  = List.filter (fun r => Metric.date r =? d) rows.
Proof.
  intros Hd. unfold replace_metric. rewrite List.filter_app. cbn.
  apply Z.eqb_neq in Hd as Hd'. rewrite Hd', app_nil_r.
  induction rows as [|r rows IH]; cbn; [reflexivity|].
  destruct (Metric.date r =? Metric.date row) eqn:E; cbn.
  - apply Z.eqb_eq in E. rewrite E, Hd'. exact IH.
  - destruct (Metric.date r =? d); [f_equal|]; exact IH.
Qed.

Lemma filter_replace_metric_same row rows :
  List.filter (fun r => Metric.date r =? Metric.date row) (replace_metric row rows)
  = [row].
Proof.
  unfold replace_metric. rewrite List.filter_app. cbn.
  rewrite Z.eqb_refl.
  induction rows as [|r rows IH]; cbn; [reflexivity|].
  destruct (Metric.date r =? Metric.date row) eqn:E; cbn; [exact IH|].
  rewrite E. exact IH.
Qed.

Lemma update_daily_metrics_other_date env w d :
  today env <> d ->
  metrics_on d (snd (update_daily_metrics env w)) = metrics_on d w.
Proof.
  intros Hd. rewrite update_daily_metrics_eq. cbn.
  destruct (write_locked w); [reflexivity|].
  unfold metrics_on. cbn. now apply filter_replace_metric_other.
Qed.

(** C6: two runs of the aggregator on the same calendar day, with nothing
    written in between and the database not locked by another
    connection, leave exactly one row for that day, and the row after the
    second run is the row after the first. *)
Theorem update_daily_metrics_idempotent env1 env2 w :
  write_locked w = false ->
  today env1 = today env2 ->
  let w1 := snd (update_daily_metrics env1 w) in
  let w2 := snd (update_daily_metrics env2 w1) in
  metrics_on (today env1) w1 = [todays_metric env1 w]
  /\ metrics_on (today env1) w2 = [todays_metric env1 w].
Proof.
  intros Hfree Hday. cbn zeta.
  rewrite !update_daily_metrics_eq. cbn [snd]. rewrite Hfree. cbn [write_locked set_daily_metrics].
  rewrite Hfree. unfold metrics_on. cbn [daily_metrics].
  assert (Hrow : todays_metric env2
                   (set_daily_metrics (replace_metric (todays_metric env1 w)) w)
                 = todays_metric env1 w).
  { unfold todays_metric. cbn. now rewrite Hday. }
  cbn [set_daily_metrics daily_metrics] in *. rewrite Hrow.
  split; apply (filter_replace_metric_same (todays_metric env1 w)).
Qed.

Lemma update_daily_metrics_idempotent_witness :
  let env1 := Scenario.env None in
  let env2 := {| ADMIN_ID := None; now := 1700000600; tz := 28800;
                 deliver := fun _ _ => true |} in
  let w := Scenario.world [Scenario.ana; Scenario.ben] ∅ in
  let w1 := snd (update_daily_metrics env1 w) in
  let w2 := snd (update_daily_metrics env2 w1) in
  metrics_on (today env1) w1 = [todays_metric env1 w]
  /\ metrics_on (today env1) w2 = [todays_metric env1 w].
Proof.
  apply (update_daily_metrics_idempotent (Scenario.env None)
           {| ADMIN_ID := None; now := 1700000600; tz := 28800;
              deliver := fun _ _ => true |}
           (Scenario.world [Scenario.ana; Scenario.ben] ∅)).
  - reflexivity.
  - reflexivity.
Defined.

(** C9: whatever the runs of the aggregator (at start-up or on schedule),
    the rows of a date that is not the current date of any of the runs
    are left as they are; in particular a date without a row gets none. *)
Theorem run_metrics_writes_today_only clocks w d :
  Forall (fun env => today env <> d) clocks ->
  metrics_on d (snd (run_metrics clocks w)) = metrics_on d w
  /\ (metrics_on d w = [] -> metrics_on d (snd (run_metrics clocks w)) = []).
Proof.
  intros Hclocks.
  assert (H : metrics_on d (snd (run_metrics clocks w)) = metrics_on d w).
  { revert w. induction Hclocks as [|env clocks Henv _ IH]; intros w;
      [reflexivity|].
    unfold run_metrics in *. cbn [for_each]. unfold mbind, M_bind, bind.
    rewrite update_daily_metrics_eq. rewrite IH.
    rewrite <- (update_daily_metrics_other_date env w d Henv).
    now rewrite update_daily_metrics_eq. }
  split; [exact H | intros H0; now rewrite H].
Qed.

Lemma run_metrics_writes_today_only_witness :
  let monday := Scenario.env None in
  let wednesday := {| ADMIN_ID := None; now := 1700000000 + 2 * 86400;
                      tz := 28800; deliver := fun _ _ => true |} in
  let w := Scenario.world [Scenario.ana] ∅ in
  let tuesday := today monday + 1 in
  metrics_on tuesday (snd (run_metrics [monday; wednesday] w)) = [].
Proof.
  cbn zeta.
  apply (run_metrics_writes_today_only
           [Scenario.env None;
            {| ADMIN_ID := None; now := 1700000000 + 2 * 86400;
               tz := 28800; deliver := fun _ _ => true |}]
           (Scenario.world [Scenario.ana] ∅)
           (today (Scenario.env None) + 1)).
  - repeat constructor; vm_compute; discriminate.
  - reflexivity.
Defined.

(** ** C7: the confirmation token *)

Lemma split1_confirm_token broadcast_text :
  Py.split1 ":"%char (confirm_token broadcast_text)
  = ["confirm_broadcast"; broadcast_text].
Proof. reflexivity. Qed.

Lemma take_length n s : (String.length (Py.take n s) <= n)%nat.
Proof.
  unfold Py.take. revert s. induction n as [|n IH]; intros [|c s]; cbn; try lia.
  specialize (IH s). lia.
Qed.



(** A text with the separator in it, end to end: the admin drafts it,
    the confirmation carries the token, the callback sends the text. *)
Example broadcast_with_colons :
  let env := Scenario.env (Some 1) in
  let w := Scenario.world [Scenario.ana] ∅ in
  let r := process_message env (Scenario.message 1 "/broadcast Sale: 50% off: today") w in
  body <$> trace (snd r)
  = [BroadcastConfirmation "Sale: 50% off: today"
       "confirm_broadcast:Sale: 50% off: today" "cancel_broadcast"]
  /\ body <$> trace (snd (process_callback env
                 (Scenario.callback 1 "confirm_broadcast:Sale: 50% off: today") w))
     = [BroadcastSending; Announcement "Sale: 50% off: today";
        BroadcastComplete 1 1 0 "Sale: 50% off: today"].
Proof. vm_compute. split; reflexivity. Qed.

(** ** C5: fan-out *)

Lemma trace_add_attempts l w : trace (add_attempts l w) = (trace w ++ l)%list.
Proof.
  revert w. induction l as [|a l IH]; intros w; cbn.
  - now rewrite app_nil_r.
  - unfold add_attempts in IH. rewrite IH. cbn. now rewrite <- app_assoc.
Qed.

Lemma users_add_attempts l w : users (add_attempts l w) = users w.
Proof.
  revert w. induction l as [|a l IH]; intros w; cbn; [reflexivity|].
  unfold add_attempts in IH. now rewrite IH.
Qed.

Lemma sent_failed_total l : sent_in l + failed_in l = Z.of_nat (length l).
Proof.
  unfold sent_in, failed_in. induction l as [|a l IH]; cbn; [reflexivity|].
  destruct (delivered a); cbn [negb length]; lia.
Qed.

Lemma sent_in_cons a l :
  sent_in (a :: l) = (if delivered a then 1 else 0) + sent_in l.
Proof. unfold sent_in. cbn. destruct (delivered a); cbn [length]; lia. Qed.

Lemma failed_in_cons a l :
  failed_in (a :: l) = (if delivered a then 0 else 1) + failed_in l.
Proof. unfold failed_in. cbn. destruct (delivered a); cbn [negb length]; lia. Qed.

(** The broadcast loop calls the transport once per target, in order,
    whatever the outcome of the earlier calls; it returns its two
    counters and never raises. *)
Lemma broadcast_loop_spec env broadcast_text targets :
  forall sent_count failed_count w,
  exists new,
    broadcast_loop env broadcast_text targets sent_count failed_count w
    = (Ok (sent_count + sent_in new, failed_count + failed_in new),
       add_attempts new w)
    /\ to <$> new = targets
    /\ Forall (fun a => body a = Announcement broadcast_text) new.
Proof.
  induction targets as [|u rest IH]; intros sent_count failed_count w.
  - exists []. cbn. unfold ret. rewrite !Z.add_0_r. auto.
  - cbn [broadcast_loop]. unfold mbind, M_bind, bind, try_except, send_message.
    set (a := {| to := u; edited := None; body := Announcement broadcast_text;
                 delivered := deliver env (length (trace w)) u |}).
    destruct (deliver env (length (trace w)) u) eqn:Hok; cbn.
    + destruct (IH (sent_count + 1) failed_count (add_attempt a w))
        as (new & Hrun & Hto & Hbody).
      exists (a :: new). rewrite Hrun, sent_in_cons, failed_in_cons.
      subst a; cbn. repeat split.
      * do 2 f_equal. f_equal; lia.
      * now rewrite Hto.
      * now constructor.
    + destruct (IH sent_count (failed_count + 1) (add_attempt a w))
        as (new & Hrun & Hto & Hbody).
      exists (a :: new). rewrite Hrun, sent_in_cons, failed_in_cons.
      subst a; cbn. repeat split.
      * do 2 f_equal. f_equal; lia.
      * now rewrite Hto.
      * now constructor.
Qed.

(** One notification: one transport call, and a normal return whether
    the call is accepted or not. *)
Lemma notify_one_spec env title budget job_id fid w :
  exists w',
    notify_one env title budget job_id fid w = (Ok tt, w')
    /\ trace w' =
         (trace w ++ [ {| to := fid; edited := None;
                          body := NewJobAvailable title budget;
                          delivered := deliver env (length (trace w)) fid |} ])%list.
Proof.
  unfold notify_one, try_except, mbind, M_bind, bind, send_message.
  destruct (deliver env (length (trace w)) fid).
  - rewrite log_activity_eq. eexists. split; [reflexivity|].
    destruct (write_locked _); reflexivity.
  - eexists. split; reflexivity.
Qed.

(** The notification loop of [handle_job_budget]: one transport call per
    freelancer, in order, and a normal return. *)
Lemma notify_loop_spec env title budget job_id fids :
  forall w,
  exists new w',
    for_each fids (notify_one env title budget job_id) w = (Ok tt, w')
    /\ trace w' = (trace w ++ new)%list
    /\ to <$> new = fids
    /\ Forall (fun a => body a = NewJobAvailable title budget) new.
Proof.
  induction fids as [|fid rest IH]; intros w.
  - exists [], w. cbn. now rewrite app_nil_r.
  - cbn [for_each]. unfold mbind, M_bind, bind.
    destruct (notify_one_spec env title budget job_id fid w) as (w1 & -> & Ht1).
    destruct (IH w1) as (new & w' & -> & Ht & Hto & Hbody).
    eexists (_ :: new), w'. split; [reflexivity|].
    rewrite Ht, Ht1, <- app_assoc. repeat split.
    + cbn. now rewrite Hto.
    + constructor; [reflexivity | exact Hbody].
Qed.

(** C5, as stated, fails for the job notification: two freelancers, the
    transport refuses the first (user 4).  Both are tried and the handler
    returns normally, but no count is reported to anyone. *)
Lemma job_notification_reports_no_counts :
  let env := Scenario.env_blocked None 4 in
  let w := Scenario.world [Scenario.ana; Scenario.ben; Scenario.cy]
             {[3 := <["description" := "Need a logo"]>
                      (<["title" := "Logo design"]> {["step" := "job_budget"]})]} in
  let r := process_message env (Scenario.message 3 "$50") w in
  fst r = Ok tt
  /\ (fun a => (to a, delivered a)) <$> trace (snd r)
     = [(3, true); (4, false); (7, true)]
  /\ reported_counts (trace (snd r)) = [].
Proof. vm_compute. repeat split; reflexivity. Qed.

(** C5 (amended).  The broadcast loop over N targets calls the transport
    once per target in order, returns normally with the number of
    accepted and of refused calls, and these add up to N; when the status
    edit is accepted, [send_broadcast] then reports N and the two counts
    to the admin's chat.  The job notification calls the transport once
    per freelancer in order and returns normally; it reports no counts. *)
Theorem fan_out_accounting env w :
  (forall broadcast_text targets,
     exists new,
       broadcast_loop env broadcast_text targets 0 0 w
       = (Ok (sent_in new, failed_in new), add_attempts new w)
       /\ to <$> new = targets
       /\ sent_in new + failed_in new = Z.of_nat (length targets))
  /\ (forall call broadcast_text,
        deliver env (length (trace w)) (call_chat_id call) = true ->
        exists status new report,
          trace (snd (send_broadcast env call broadcast_text w))
          = (trace w ++ status :: new ++ [report])%list
          /\ to <$> new = broadcast_targets w
          /\ to report = call_chat_id call
          /\ body report =
               BroadcastComplete (Z.of_nat (length (broadcast_targets w)))
                 (sent_in new) (failed_in new) (Py.take 100 broadcast_text)
          /\ sent_in new + failed_in new
             = Z.of_nat (length (broadcast_targets w)))
  /\ (forall title budget job_id,
        exists new,
          fst (notify_freelancers env title budget job_id w) = Ok tt
          /\ trace (snd (notify_freelancers env title budget job_id w))
             = (trace w ++ new)%list
          /\ to <$> new = freelancers_of w
          /\ reported_counts new = []).
Proof.
  split; [|split].
  - intros broadcast_text targets.
    destruct (broadcast_loop_spec env broadcast_text targets 0 0 w)
      as (new & Hrun & Hto & _).
    exists new. rewrite Hrun, !Z.add_0_l. repeat split; [exact Hto|].
    rewrite sent_failed_total, <- Hto. now rewrite length_fmap.
  - intros call broadcast_text Hsend.
    unfold send_broadcast, mbind, M_bind.
    unfold bind at 1. unfold edit_message_text. rewrite Hsend.
    set (status := {| to := call_chat_id call; edited := Some (call_message_id call);
                      body := BroadcastSending; delivered := true |}).
    unfold bind at 1. unfold get.
    change (scan_users (add_attempt status w)) with (scan_users w).
    fold (broadcast_targets w).
    destruct (broadcast_loop_spec env broadcast_text (broadcast_targets w) 0 0
                (add_attempt status w)) as (new & Hrun & Hto & _).
    unfold bind at 1. rewrite Hrun, !Z.add_0_l. cbn [fst snd].
    unfold bind at 1. unfold send_message.
    assert (Htotal : sent_in new + failed_in new
                     = Z.of_nat (length (broadcast_targets w))).
    { rewrite sent_failed_total, <- Hto. now rewrite length_fmap. }
    destruct (deliver env (length (trace (add_attempts new (add_attempt status w))))
                (call_chat_id call)) eqn:Hrep; cbn [fst snd].
    + rewrite log_activity_eq. cbn [snd].
      exists status, new. eexists. split.
      * destruct (write_locked _); cbn; rewrite trace_add_attempts; cbn;
          rewrite <- !app_assoc; reflexivity.
      * cbn. auto.
    + exists status, new. eexists. split.
      * cbn. rewrite trace_add_attempts. cbn.
        rewrite <- !app_assoc. reflexivity.
      * cbn. auto.
  - intros title budget job_id.
    unfold notify_freelancers, mbind, M_bind, try_except, bind, get_freelancers.
    unfold mbind, M_bind, bind, get, ret. fold (freelancers_of w).
    destruct (notify_loop_spec env title budget job_id (freelancers_of w) w)
      as (new & w' & -> & Htrace & Hto & Hbody).
    cbn [fst snd].
    exists new. repeat split; [exact Htrace | exact Hto |].
    clear -Hbody. induction Hbody as [|a l Ha _ IH]; [reflexivity|].
    unfold reported_counts in *. cbn. now rewrite Ha.
Qed.

Lemma fan_out_accounting_witness :
  let env := Scenario.env_blocked (Some 1) 7 in
  let w := Scenario.world [Scenario.ana; Scenario.ben; Scenario.cy] ∅ in
  let call := Scenario.callback 1 "confirm_broadcast:hi" in
  deliver env (length (trace w)) (call_chat_id call) = true
  /\ exists status new report,
       trace (snd (send_broadcast env call "hi" w))
       = (trace w ++ status :: new ++ [report])%list
       /\ to <$> new = broadcast_targets w
       /\ to report = call_chat_id call
       /\ body report =
            BroadcastComplete (Z.of_nat (length (broadcast_targets w)))
              (sent_in new) (failed_in new) (Py.take 100 "hi")
       /\ sent_in new + failed_in new
          = Z.of_nat (length (broadcast_targets w)).
Proof.
  cbn zeta. split; [reflexivity|].
  destruct (fan_out_accounting (Scenario.env_blocked (Some 1) 7)
              (Scenario.world [Scenario.ana; Scenario.ben; Scenario.cy] ∅))
    as (_ & Hreport & _).
  apply (Hreport (Scenario.callback 1 "confirm_broadcast:hi") "hi").
  reflexivity.
Defined.

(** The counts of that broadcast: three targets, one refused. *)
Example broadcast_with_one_failure :
  let env := Scenario.env_blocked (Some 1) 7 in
  let w := Scenario.world [Scenario.ana; Scenario.ben; Scenario.cy] ∅ in
  reported_counts (trace (snd (process_callback env
                     (Scenario.callback 1 "confirm_broadcast:hi") w)))
  = [(3, 2, 1)].
Proof. vm_compute. reflexivity. Qed.

(** ** C8: the detail of an activity event *)

#[global] Instance appends_frame (P : Activity.t -> Prop) : Frame (appends P).
Proof.
  split; unfold appends.
  - intros w. exists []. now rewrite app_nil_r.
  - intros w1 w2 w3 (n1 & H1 & P1) (n2 & H2 & P2).
    exists (n1 ++ n2)%list. rewrite H2, H1, app_assoc. split; [reflexivity|].
    now apply Forall_app.
  - intros a w. exists []. cbn. now rewrite app_nil_r.
  - intros b w. exists []. cbn. now rewrite app_nil_r.
  - intros f w. exists []. cbn. now rewrite app_nil_r.
Qed.

Lemma appends_add_activity (P : Activity.t -> Prop) row w :
  P row -> appends P w (add_activity row w).
Proof. intros H. exists [row]. split; [reflexivity | now constructor]. Qed.

Lemma appends_same_log (P : Activity.t -> Prop) w w' :
  user_activity w' = user_activity w -> appends P w w'.
Proof. intros H. exists []. now rewrite app_nil_r. Qed.


Lemma length_append s1 s2 :
  String.length (s1 +:+ s2) = (String.length s1 + String.length s2)%nat.
Proof.
  induction s1 as [|c s1 IH]; [reflexivity|].
  change (String c s1 +:+ s2) with (String c (s1 +:+ s2)).
  cbn [String.length]. now rewrite IH.
Qed.

(** The step before logs a bounded prefix: what [handle_skills] appends
    for a message when the log can be written. *)
Lemma handle_skills_logs_prefix env m w :
  write_locked w = false ->
  exists a,
    user_activity (snd (handle_skills env m w)) = (user_activity w ++ [a])%list
    /\ Activity.action a = "set_skills"
    /\ Activity.details a = "Skills: " +:+ Py.take 50 (text m).
Proof.
  intros Hfree. unfold handle_skills, mbind, M_bind, bind.
  rewrite log_activity_eq, Hfree. unfold db_write. cbn [write_locked add_activity].
  rewrite Hfree. cbv beta iota. unfold modify, send_message. cbv beta iota.
  eexists. split.
  { match goal with
    | |- context [deliver env ?n ?c] => destruct (deliver env n c)
    end; reflexivity. }
  split; reflexivity.
Qed.

(** C8, on the code: the location step logs the text whole.  Whenever the
    log can be written, [handle_location] appends one event whose detail
    is the label followed by the whole text of the message.  For a text
    of more than 50 characters the detail is therefore no bounded prefix:
    it is not the label followed by the first 50 characters, and its
    length is that of the text plus the 10 characters of the label.  For
    the same message the step before, [handle_skills], logs its label
    followed by the first 50 characters. *)
Theorem location_detail_is_not_truncated env m w :
  write_locked w = false ->
  (50 < String.length (text m))%nat ->
  (exists a,
     user_activity (snd (handle_location env m w)) = (user_activity w ++ [a])%list
     /\ Activity.action a = "set_location"
     /\ Activity.details a = "Location: " +:+ text m
     /\ Activity.details a <> "Location: " +:+ Py.take 50 (text m)
     /\ String.length (Activity.details a) = (10 + String.length (text m))%nat)
  /\ (exists b,
        user_activity (snd (handle_skills env m w)) = (user_activity w ++ [b])%list
        /\ Activity.details b = "Skills: " +:+ Py.take 50 (text m)).
Proof.
  intros Hfree Hlong. split.
  - unfold handle_location, mbind, M_bind, bind.
    rewrite log_activity_eq, Hfree. unfold db_write. cbn [write_locked add_activity].
    rewrite Hfree. cbv beta iota. unfold modify, send_message. cbv beta iota.
    eexists. split.
    { match goal with
      | |- context [deliver env ?n ?c] => destruct (deliver env n c)
      end; reflexivity. }
    split; [reflexivity|]. split; [reflexivity|]. split.
    + cbn [Activity.details]. intros Heq.
      assert (Hlen : String.length ("Location: " +:+ text m)
                     = String.length ("Location: " +:+ Py.take 50 (text m)))
        by now rewrite Heq.
      rewrite !length_append in Hlen.
      pose proof (take_length 50 (text m)). lia.
    + cbn [Activity.details]. now rewrite length_append.
  - destruct (handle_skills_logs_prefix env m w Hfree) as (b & Hlog & _ & Hb).
    now exists b.
Qed.

Lemma location_detail_is_not_truncated_witness :
  let location := "Unit 1203, Tower B, 45 Ayala Avenue, Makati City, Metro Manila" in
  let env := Scenario.env None in
  let m := Scenario.message 7 location in
  let w := Scenario.world [Scenario.ana] {[7 := {["step" := "ask_location"]}]} in
  (exists a,
     user_activity (snd (handle_location env m w)) = (user_activity w ++ [a])%list
     /\ Activity.action a = "set_location"
     /\ Activity.details a = "Location: " +:+ location
     /\ Activity.details a <> "Location: " +:+ Py.take 50 location
     /\ String.length (Activity.details a) = (10 + String.length location)%nat)
  /\ (exists b,
        user_activity (snd (handle_skills env m w)) = (user_activity w ++ [b])%list
        /\ Activity.details b = "Skills: " +:+ Py.take 50 location).
Proof.
  cbn zeta.
  apply (location_detail_is_not_truncated (Scenario.env None)
           (Scenario.message 7
              "Unit 1203, Tower B, 45 Ayala Avenue, Makati City, Metro Manila")
           (Scenario.world [Scenario.ana] {[7 := {["step" := "ask_location"]}]})).
  - reflexivity.
  - apply (bool_decide_unpack _). vm_compute. exact I.
Defined.

(** The same through the routing: a user at the location step sends an
    address of 62 characters; the event holds all of it. *)
Example location_detail_is_whole_text :
  let location := "Unit 1203, Tower B, 45 Ayala Avenue, Makati City, Metro Manila" in
  let w := Scenario.world [Scenario.ana] {[7 := {["step" := "ask_location"]}]} in
  let r := process_message (Scenario.env None) (Scenario.message 7 location) w in
  String.length location = 62%nat
  /\ Activity.details <$> user_activity (snd r) = ["Location: " +:+ location]
  /\ String.length <$> (Activity.details <$> user_activity (snd r)) = [72%nat].
Proof. vm_compute. repeat split; reflexivity. Qed.

(** The skills step on a text of 62 characters: the label and the first
    50 characters, 58 in all. *)
Example skills_detail_is_cut :
  let skills := "Web design, copywriting, translation, bookkeeping and tutoring" in
  let w := Scenario.world [Scenario.ana] {[7 := {["step" := "ask_skills"]}]} in
  let r := process_message (Scenario.env None) (Scenario.message 7 skills) w in
  String.length skills = 62%nat
  /\ Activity.details <$> user_activity (snd r)
     = ["Skills: Web design, copywriting, translation, bookkeeping "]
  /\ String.length <$> (Activity.details <$> user_activity (snd r)) = [58%nat].
Proof. vm_compute. repeat split; reflexivity. Qed.

(** *** The steps that do cut the text *)




(** * Further properties of the code *)

(** ** Invariants of the store under message handling *)

(** What holds of every handler holds of the routing. *)
Lemma process_message_preserves (R : World -> World -> Prop) `{!Frame R} env m :
  Forall (fun h => preserves R (snd h m)) (message_handlers env) ->
  preserves R (process_message env m).
Proof.
  intros Hall w.
  destruct (process_message_find env m w) as [(f & h & Hin & _ & ->)| ->];
    [|apply frame_refl].
  rewrite Forall_forall in Hall.
  apply (Hall (f, h)). now apply list_elem_of_In.
Qed.

Ltac unfold_handlers :=
  unfold start, choose_role, save_user, handle_skills, handle_location,
    handle_job_title, handle_job_description, handle_job_budget, create_job,
    notify_freelancers, notify_one, list_jobs_command, profile_command,
    help_command, get_id_command, admin_dashboard, admin_users,
    admin_all_jobs, view_user_detail, handle_ban_unban, daily_report,
    analytics, broadcast_message, handle_unknown.

(** [tac] proves the frame of one handler; this applies it to all. *)
Ltac each_handler tac :=
  unfold message_handlers;
  repeat (apply Forall_cons; split; [cbn [snd]; unfold_handlers; tac |]);
  apply Forall_nil; exact I.

(** *** The users table *)

Lemma user_ids_update_user user_id f rows :
  (forall r, User.user_id (f r) = User.user_id r) ->
  User.user_id <$> update_user user_id f rows = User.user_id <$> rows.
Proof.
  intros Hf. unfold update_user. induction rows as [|r rows IH]; cbn;
    [reflexivity|].
  rewrite IH. destruct (User.user_id r =? user_id); now rewrite ?Hf.
Qed.

Lemma elem_of_filter_ids (p : User.t -> bool) rows (x : Z) :
  x ∈ User.user_id <$> List.filter p rows -> x ∈ User.user_id <$> rows.
Proof.
  induction rows as [|r rows IH]; cbn; [auto|].
  destruct (p r); cbn; rewrite ?elem_of_cons; intuition.
Qed.

Lemma NoDup_filter_ids (p : User.t -> bool) rows :
  NoDup (User.user_id <$> rows) -> NoDup (User.user_id <$> List.filter p rows).
Proof.
  induction rows as [|r rows IH]; cbn; [auto|].
  rewrite NoDup_cons. intros [Hr Hnd].
  destruct (p r); cbn; [|auto].
  apply NoDup_cons. split; [|auto].
  intros Hin. apply Hr. now apply elem_of_filter_ids in Hin.
Qed.

Lemma not_elem_of_replaced row rows :
  User.user_id row ∉
    User.user_id <$> List.filter
      (fun r => negb (User.user_id r =? User.user_id row)) rows.
Proof.
  induction rows as [|r rows IH]; cbn; [apply not_elem_of_nil|].
  destruct (User.user_id r =? User.user_id row) eqn:E; cbn; [exact IH|].
  rewrite elem_of_cons. intros [Heq|Hin]; [|now apply IH].
  rewrite Heq, Z.eqb_refl in E. discriminate.
Qed.

Lemma NoDup_replace_user row rows :
  NoDup (User.user_id <$> rows) ->
  NoDup (User.user_id <$> replace_user row rows).
Proof.
  intros Hnd. unfold replace_user. rewrite fmap_app. cbn.
  apply NoDup_app. split; [now apply NoDup_filter_ids|]. split.
  - intros x Hx Hin. apply list_elem_of_singleton in Hin. subst x.
    now apply not_elem_of_replaced in Hx.
  - apply NoDup_singleton.
Qed.

Lemma elem_of_replace_user row rows (x : Z) :
  x ∈ User.user_id <$> rows -> x ∈ User.user_id <$> replace_user row rows.
Proof.
  unfold replace_user. rewrite fmap_app, elem_of_app. cbn.
  induction rows as [|r rows IH]; cbn; [auto|].
  rewrite elem_of_cons. intros [->|Hin].
  - destruct (User.user_id r =? User.user_id row) eqn:E; cbn.
    + apply Z.eqb_eq in E. right. rewrite E. apply list_elem_of_singleton.
      reflexivity.
    + left. apply elem_of_cons. now left.
  - destruct (IH Hin) as [H|H]; [left|now right].
    destruct (negb _); cbn; [apply elem_of_cons; now right | exact H].
Qed.

#[global] Instance keeps_user_key_frame : Frame keeps_user_key.
Proof. split; unfold keeps_user_key; intros; cbn in *; auto. Qed.

#[global] Instance keeps_user_ids_frame : Frame keeps_user_ids.
Proof. split; unfold keeps_user_ids; intros; cbn in *; auto. Qed.

Ltac solve_user_write :=
  intros; unfold keeps_user_key, keeps_user_ids, user_ids; cbn;
  rewrite ?user_ids_update_user by reflexivity;
  first [ exact id
        | apply NoDup_replace_user
        | intros ?; apply elem_of_replace_user
        | auto ].

Ltac frame_user_ids :=
  repeat first
    [ frame_step
    | apply preserves_log_activity; [exact _ | solve_user_write]
    | apply preserves_db_write; [exact _ | solve_user_write]
    | apply preserves_db_commit; [exact _ | solve_user_write] ].

Lemma handlers_keep_user_key env m :
  Forall (fun h => preserves keeps_user_key (snd h m)) (message_handlers env).
Proof. each_handler frame_user_ids. Qed.

Lemma handlers_keep_user_ids env m :
  Forall (fun h => preserves keeps_user_ids (snd h m)) (message_handlers env).
Proof. each_handler frame_user_ids. Qed.

(** *** From one update to a run of the polling loop *)

Lemma run_preserves (R : World -> World -> Prop) `{!Frame R} :
  (forall env u, preserves R (process_update env u)) ->
  forall events w, R w (run events w).
Proof.
  intros Hstep events. unfold run.
  induction events as [|[env u] events IH]; intros w; cbn.
  - apply frame_refl.
  - eapply frame_trans; [apply (Hstep env u w) | apply IH].
Qed.

Lemma process_update_keeps_user_key env u :
  preserves keeps_user_key (process_update env u).
Proof.
  destruct u as [m|call|]; cbn [process_update].
  - apply process_message_preserves; [exact _ | apply handlers_keep_user_key].
  - unfold process_callback, handle_callback, send_broadcast. frame_user_ids.
  - unfold update_daily_metrics. frame_user_ids.
Qed.

Lemma process_update_keeps_user_ids env u :
  preserves keeps_user_ids (process_update env u).
Proof.
  destruct u as [m|call|]; cbn [process_update].
  - apply process_message_preserves; [exact _ | apply handlers_keep_user_ids].
  - unfold process_callback, handle_callback, send_broadcast. frame_user_ids.
  - unfold update_daily_metrics. frame_user_ids.
Qed.

(** X1: whatever updates the bot handles, the [users] table keeps at most
    one row per user id. *)
Theorem run_keeps_one_row_per_user events w :
  NoDup (user_ids w) -> NoDup (user_ids (run events w)).
Proof.
  apply (run_preserves keeps_user_key process_update_keeps_user_key).
Qed.

Lemma run_keeps_one_row_per_user_witness :
  let env := Scenario.env (Some 1) in
  let events :=
    [ (env, IncomingMessage (Scenario.message 7 CLIENT_BUTTON));
      (env, IncomingMessage (Scenario.message 9 FREELANCER_BUTTON));
      (env, IncomingMessage (Scenario.message 7 FREELANCER_BUTTON));
      (env, IncomingMessage (Scenario.message 1 "/ban_9")) ] in
  NoDup (user_ids (run events (Scenario.world [Scenario.ana; Scenario.ben] ∅))).
Proof.
  cbn zeta. apply run_keeps_one_row_per_user.
  apply (bool_decide_unpack _). vm_compute. exact I.
Defined.

(** X2: no update ever deletes a user: an id with a row keeps a row. *)
Theorem run_never_deletes_users events w user_id :
  user_id ∈ user_ids w -> user_id ∈ user_ids (run events w).
Proof.
  intros H.
  apply (run_preserves keeps_user_ids process_update_keeps_user_ids events w).
  exact H.
Qed.

Lemma run_never_deletes_users_witness :
  let env := Scenario.env (Some 1) in
  let events :=
    [ (env, IncomingMessage (Scenario.message 7 CLIENT_BUTTON));
      (env, IncomingMessage (Scenario.message 1 "/ban_7"));
      (env, IncomingCallback (Scenario.callback 1 "cancel_broadcast")) ] in
  7 ∈ user_ids (run events (Scenario.world [Scenario.ana; Scenario.ben] ∅)).
Proof.
  cbn zeta. apply run_never_deletes_users.
  apply (bool_decide_unpack _). vm_compute. exact I.
Defined.

(** *** The activity log and the jobs table *)

Ltac frame_append_only :=
  repeat first
    [ frame_step
    | apply preserves_log_activity;
        [exact _ | intros; apply appends_add_activity; exact I]
    | apply preserves_db_write;
        [exact _ | intros; apply appends_same_log; reflexivity]
    | apply preserves_db_commit;
        [exact _ | intros; apply appends_same_log; reflexivity] ].

Lemma handlers_append_activity env m :
  Forall (fun h => preserves (appends (fun _ => True)) (snd h m))
         (message_handlers env).
Proof. each_handler frame_append_only. Qed.

Lemma process_update_appends_activity env u :
  preserves (appends (fun _ => True)) (process_update env u).
Proof.
  destruct u as [m|call|]; cbn [process_update].
  - apply process_message_preserves; [exact _ | apply handlers_append_activity].
  - unfold process_callback, handle_callback, send_broadcast. frame_append_only.
  - unfold update_daily_metrics. frame_append_only.
Qed.

(** X3: the activity log is append-only: after any series of updates the
    old log is a prefix of the new one. *)
Theorem run_appends_activity events w :
  exists new, user_activity (run events w) = (user_activity w ++ new)%list.
Proof.
  destruct (run_preserves (appends (fun _ => True))
              process_update_appends_activity events w) as (new & H & _).
  now exists new.
Qed.

#[global] Instance appends_jobs_frame (P : Job.t -> Prop) : Frame (appends_jobs P).
Proof.
  split; unfold appends_jobs.
  - intros w. exists []. now rewrite app_nil_r.
  - intros w1 w2 w3 (n1 & H1 & P1) (n2 & H2 & P2).
    exists (n1 ++ n2)%list. rewrite H2, H1, app_assoc. split; [reflexivity|].
    now apply Forall_app.
  - intros a w. exists []. cbn. now rewrite app_nil_r.
  - intros b w. exists []. cbn. now rewrite app_nil_r.
  - intros f w. exists []. cbn. now rewrite app_nil_r.
Qed.

Lemma appends_jobs_add_job (P : Job.t -> Prop) row w :
  P row -> appends_jobs P w (add_job row w).
Proof. intros H. exists [row]. split; [reflexivity | now constructor]. Qed.

Lemma appends_jobs_same (P : Job.t -> Prop) w w' :
  jobs w' = jobs w -> appends_jobs P w w'.
Proof. intros H. exists []. now rewrite app_nil_r. Qed.

Ltac frame_new_jobs :=
  repeat first
    [ frame_step
    | apply preserves_log_activity;
        [exact _ | intros; apply appends_jobs_same; reflexivity]
    | apply preserves_db_write;
        [exact _ | intros;
           first [ apply appends_jobs_same; reflexivity
                 | apply appends_jobs_add_job; cbn; auto ] ]
    | apply preserves_db_commit;
        [exact _ | intros; apply appends_jobs_same; reflexivity] ].

Lemma handlers_append_open_jobs env m :
  Forall (fun h => preserves
            (appends_jobs (fun j => Job.status j = "open"
                                    /\ Job.client_id j = from_user_id m))
            (snd h m))
         (message_handlers env).
Proof. each_handler frame_new_jobs. Qed.

Lemma appends_jobs_weaken (P Q : Job.t -> Prop) w w' :
  (forall j, P j -> Q j) -> appends_jobs P w w' -> appends_jobs Q w w'.
Proof.
  intros HPQ (new & H & HP). exists new. split; [exact H|].
  eapply Forall_impl; eauto.
Qed.

Lemma process_update_appends_open_jobs env u :
  preserves (appends_jobs (fun j => Job.status j = "open")) (process_update env u).
Proof.
  destruct u as [m|call|]; cbn [process_update].
  - intros w.
    eapply appends_jobs_weaken;
      [|apply (process_message_preserves _ env m (handlers_append_open_jobs env m))].
    now intros j [H _].
  - unfold process_callback, handle_callback, send_broadcast. frame_new_jobs.
  - unfold update_daily_metrics. frame_new_jobs.
Qed.

(** X4: the jobs table is append-only and no update closes a job: after
    any series of updates the old rows are a prefix of the table, and
    every row added is open. *)
Theorem run_appends_open_jobs events w :
  exists new,
    jobs (run events w) = (jobs w ++ new)%list
    /\ Forall (fun j => Job.status j = "open") new.
Proof.
  apply (run_preserves (appends_jobs (fun j => Job.status j = "open"))
           process_update_appends_open_jobs events w).
Qed.

(** X5: a message creates jobs for its sender only: every row that
    handling one message adds to the jobs table is open and has the
    sender as its client. *)
Theorem process_message_jobs_belong_to_sender env m w :
  exists new,
    jobs (snd (process_message env m w)) = (jobs w ++ new)%list
    /\ Forall (fun j => Job.status j = "open"
                        /\ Job.client_id j = from_user_id m) new.
Proof.
  apply (process_message_preserves _ env m (handlers_append_open_jobs env m)).
Qed.

(** ** The job posting commit *)

Lemma notify_one_same_but_log env title budget job_id fid w :
  same_but_log w (snd (notify_one env title budget job_id fid w)).
Proof.
  unfold notify_one, try_except, mbind, M_bind, bind, send_message.
  destruct (deliver env (length (trace w)) fid); cbn.
  - rewrite log_activity_eq. cbn.
    destruct (write_locked w); repeat split; reflexivity.
  - repeat split; reflexivity.
Qed.

Lemma same_but_log_trans w1 w2 w3 :
  same_but_log w1 w2 -> same_but_log w2 w3 -> same_but_log w1 w3.
Proof. unfold same_but_log. intuition congruence. Qed.

Lemma notify_loop_same_but_log env title budget job_id fids :
  forall w,
    same_but_log w (snd (for_each fids (notify_one env title budget job_id) w)).
Proof.
  induction fids as [|fid rest IH]; intros w; [repeat split; reflexivity|].
  cbn [for_each]. unfold mbind, M_bind, bind.
  pose proof (notify_one_same_but_log env title budget job_id fid w) as H1.
  destruct (notify_one_spec env title budget job_id fid w) as (w1 & Hrun & _).
  rewrite Hrun in *. cbn [snd] in H1.
  exact (same_but_log_trans _ _ _ H1 (IH w1)).
Qed.

Lemma notify_freelancers_same_but_log env title budget job_id w :
  same_but_log w (snd (notify_freelancers env title budget job_id w)).
Proof.
  unfold notify_freelancers, mbind, M_bind, try_except, bind, get_freelancers.
  unfold mbind, M_bind, bind, get, ret.
  pose proof (notify_loop_same_but_log env title budget job_id
                (freelancers_of w) w) as H.
  fold (freelancers_of w).
  destruct (notify_loop_spec env title budget job_id (freelancers_of w) w)
    as (new & w' & Hrun & _).
  rewrite Hrun in *. exact H.
Qed.

(** X6: a budget text from a user whose accumulator holds a title and a
    description, with the database not locked by another connection, adds
    exactly one row to the jobs table: the next id, the sender as client,
    the title and description as accumulated, the text as budget, status
    open.  The conversation state of the sender is cleared.  This holds
    whether or not the transport delivers anything. *)
Theorem handle_job_budget_commits env m w d title description :
  user_state w !! from_user_id m = Some d ->
  d !! "title" = Some title ->
  d !! "description" = Some description ->
  write_locked w = false ->
  let w' := snd (handle_job_budget env m w) in
  jobs w' = (jobs w ++ [Job.mk (jobs_seq w + 1) (from_user_id m) title
                          description (text m) "open" (now env)])%list
  /\ jobs_seq w' = jobs_seq w + 1
  /\ user_state w' !! from_user_id m = None.
Proof.
  intros Hd Ht Hdesc Hfree. cbn zeta.
  unfold handle_job_budget, mbind, M_bind, bind, get, getitem.
  repeat (cbv beta iota;
          first [ rewrite Hd | rewrite Ht | rewrite Hdesc
                | rewrite log_activity_eq | rewrite Hfree
                | progress unfold ret ]).
  unfold create_job, mbind, M_bind, bind, get, db_write, ret, modify, send_message.
  cbn -[notify_freelancers]. rewrite Hfree. cbn -[notify_freelancers].
  match goal with
  | |- context [deliver env ?n ?c] => destruct (deliver env n c)
  end; cbn -[notify_freelancers].
  - match goal with
    | |- context [notify_freelancers env ?t ?b ?j ?w0] =>
        pose proof (notify_freelancers_same_but_log env t b j w0)
          as (_ & Hj & _ & Hs & Hst & _);
        destruct (notify_freelancers env t b j w0) as [res w1]
    end.
    cbn [snd] in *. rewrite Hj, Hs, Hst. cbn.
    repeat split. apply lookup_delete_eq.
  - repeat split. apply lookup_delete_eq.
Qed.

Lemma handle_job_budget_commits_witness :
  let env := Scenario.env_blocked None 7 in
  let d : gmap string string :=
    <["description" := "Need a logo"]>
      (<["title" := "Logo design"]> {["step" := "job_budget"]}) in
  let w := Scenario.world [Scenario.ana; Scenario.ben] {[3 := d]} in
  let w' := snd (handle_job_budget env (Scenario.message 3 "$50") w) in
  jobs w' = [Job.mk 1 3 "Logo design" "Need a logo" "$50" "open" 1700000000]
  /\ jobs_seq w' = 1
  /\ user_state w' !! 3 = None.
Proof.
  cbn zeta.
  apply (handle_job_budget_commits (Scenario.env_blocked None 7)
           (Scenario.message 3 "$50")
           (Scenario.world [Scenario.ana; Scenario.ben]
              {[3 := <["description" := "Need a logo"]>
                       (<["title" := "Logo design"]> {["step" := "job_budget"]})]})
           (<["description" := "Need a logo"]>
              (<["title" := "Logo design"]> {["step" := "job_budget"]}))
           "Logo design" "Need a logo");
    vm_compute; reflexivity.
Defined.

(** X7: when the transport refuses the confirmation to the client, the
    handler raises after the job is written and before the notification
    block: the job exists, the state is cleared, and no freelancer is
    tried. *)
Theorem handle_job_budget_confirmation_refused env m w d title description :
  user_state w !! from_user_id m = Some d ->
  d !! "title" = Some title ->
  d !! "description" = Some description ->
  write_locked w = false ->
  deliver env (length (trace w)) (chat_id m) = false ->
  let r := handle_job_budget env m w in
  fst r = Raise ApiException
  /\ trace (snd r) =
       (trace w ++ [ {| to := chat_id m; edited := None;
                        body := JobPosted title (text m) (jobs_seq w + 1);
                        delivered := false |} ])%list
  /\ length (jobs (snd r)) = S (length (jobs w)).
Proof.
  intros Hd Ht Hdesc Hfree Hsend. cbn zeta.
  unfold handle_job_budget, mbind, M_bind, bind, get, getitem.
  repeat (cbv beta iota;
          first [ rewrite Hd | rewrite Ht | rewrite Hdesc
                | rewrite log_activity_eq | rewrite Hfree
                | progress unfold ret ]).
  unfold create_job, mbind, M_bind, bind, get, db_write, ret, modify, send_message.
  cbn -[notify_freelancers]. rewrite Hfree. cbn -[notify_freelancers].
  rewrite Hsend. cbn.
  repeat split. rewrite length_app. cbn. lia.
Qed.

Lemma handle_job_budget_confirmation_refused_witness :
  let env := Scenario.env_blocked None 3 in
  let d : gmap string string :=
    <["description" := "Need a logo"]>
      (<["title" := "Logo design"]> {["step" := "job_budget"]}) in
  let w := Scenario.world [Scenario.ana; Scenario.ben] {[3 := d]} in
  let r := handle_job_budget env (Scenario.message 3 "$50") w in
  fst r = Raise ApiException
  /\ trace (snd r) =
       [ {| to := 3; edited := None; body := JobPosted "Logo design" "$50" 1;
            delivered := false |} ]
  /\ length (jobs (snd r)) = 1%nat.
Proof.
  cbn zeta.
  apply (handle_job_budget_confirmation_refused (Scenario.env_blocked None 3)
           (Scenario.message 3 "$50")
           (Scenario.world [Scenario.ana; Scenario.ben]
              {[3 := <["description" := "Need a logo"]>
                       (<["title" := "Logo design"]> {["step" := "job_budget"]})]})
           (<["description" := "Need a logo"]>
              (<["title" := "Logo design"]> {["step" := "job_budget"]}))
           "Logo design" "Need a logo");
    vm_compute; reflexivity.
Defined.

(** ** Scans and sorts *)

Lemma insert_row_Permutation {A : Type} (le : A -> A -> bool) x l :
  insert_row le x l ≡ₚ x :: l.
Proof.
  induction l as [|y l IH]; cbn; [reflexivity|].
  destruct (le x y); [reflexivity|]. rewrite IH. apply perm_swap.
Qed.

(** Sorting neither drops nor invents a row. *)
Lemma sort_rows_Permutation {A : Type} (le : A -> A -> bool) l :
  sort_rows le l ≡ₚ l.
Proof.
  induction l as [|x l IH]; cbn; [reflexivity|].
  now rewrite insert_row_Permutation, IH.
Qed.

Lemma insert_row_sorted {A : Type} (le : A -> A -> bool) (R : relation A) x l :
  (forall a b, le a b = true -> R a b) ->
  (forall a b, le a b = false -> R b a) ->
  Transitive R ->
  StronglySorted R l -> StronglySorted R (insert_row le x l).
Proof.
  intros Hle Hgt Htrans. induction 1 as [|y l Hs IH Hy]; cbn.
  - repeat constructor.
  - destruct (le x y) eqn:E.
    + constructor; [now constructor|].
      constructor; [now apply Hle|].
      eapply Forall_impl; [exact Hy|]. intros z Hz.
      exact (Htrans _ _ _ (Hle _ _ E) Hz).
    + constructor; [exact IH|].
      rewrite insert_row_Permutation. constructor; [now apply Hgt | exact Hy].
Qed.

Lemma sort_rows_sorted {A : Type} (le : A -> A -> bool) (R : relation A) l :
  (forall a b, le a b = true -> R a b) ->
  (forall a b, le a b = false -> R b a) ->
  Transitive R ->
  StronglySorted R (sort_rows le l).
Proof.
  intros Hle Hgt Htrans. induction l as [|x l IH]; cbn; [constructor|].
  now apply insert_row_sorted.
Qed.

(** The scan of [users] delivers the rows of the table, by ascending id. *)
Lemma scan_users_Permutation w : scan_users w ≡ₚ users w.
Proof. apply sort_rows_Permutation. Qed.

Lemma scan_users_sorted w :
  StronglySorted (fun a b => User.user_id a <= User.user_id b) (scan_users w).
Proof.
  apply sort_rows_sorted.
  - intros a b. apply Z.leb_le.
  - intros a b H%Z.leb_gt. lia.
  - intros a b c. lia.
Qed.

Lemma elem_of_scan_users w row : row ∈ scan_users w <-> row ∈ users w.
Proof. now rewrite scan_users_Permutation. Qed.

(** A selection from the scan holds the ids it would hold on the table
    in storage order. *)
Lemma elem_of_filter_scan (p : User.t -> bool) w (x : Z) :
  x ∈ User.user_id <$> List.filter p (scan_users w)
  <-> x ∈ User.user_id <$> List.filter p (users w).
Proof.
  rewrite !list_elem_of_fmap.
  split; intros (row & -> & Hin); exists row; (split; [reflexivity|]);
    apply list_elem_of_In, List.filter_In in Hin as [Hin Hp];
    apply list_elem_of_In, List.filter_In; (split; [|exact Hp]);
    apply list_elem_of_In, elem_of_scan_users; now apply list_elem_of_In.
Qed.

(** Users registered in the order 7, 3, 4 are notified in the order of
    their ids; a row that is replaced keeps its place in that order. *)
Example fan_out_goes_by_ascending_id :
  let w := Scenario.world [Scenario.ana; Scenario.ben; Scenario.cy] ∅ in
  let w' := snd (process_message (Scenario.env None)
                   (Scenario.message 3 FREELANCER_BUTTON) w) in
  freelancers_of w = [4; 7] /\ broadcast_targets w = [3; 4; 7]
  /\ user_ids w' = [7; 4; 3] /\ freelancers_of w' = [3; 4; 7].
Proof. vm_compute. repeat split; reflexivity. Qed.

(** Rows of equal key come out of [ORDER BY] in the order of the scan. *)
Example order_by_keeps_scan_order_of_ties :
  order_desc snd [(1, 0); (2, 1); (3, 0); (4, 1); (5, 0)]
  = [(2, 1); (4, 1); (1, 0); (3, 0); (5, 0)]
  /\ order_asc snd [(1, 0); (2, 1); (3, 0); (4, 1); (5, 0)]
     = [(1, 0); (3, 0); (5, 0); (2, 1); (4, 1)].
Proof. vm_compute. split; reflexivity. Qed.

(** ** Who is notified, who is banned *)

Lemma freelancers_of_rows w (fid : Z) :
  fid ∈ freelancers_of w ->
  exists row, row ∈ users w /\ User.user_id row = fid
              /\ User.role row = "freelancer" /\ User.is_banned row = 0.
Proof.
  unfold freelancers_of. intros (row & -> & Hin)%list_elem_of_fmap.
  apply list_elem_of_In, List.filter_In in Hin as [Hin Hp].
  apply andb_prop in Hp as [Hrole Hban].
  exists row. repeat split.
  - now apply elem_of_scan_users, list_elem_of_In.
  - now apply String.eqb_eq.
  - now apply Z.eqb_eq.
Qed.

(** X8: the job notification tries the non-banned freelancers and nobody
    else: every transport call of the block is addressed to a user whose
    row has the role freelancer and is not banned, and when the user ids
    are unique nobody is tried twice. *)
Theorem notify_freelancers_targets env title budget job_id w :
  exists new,
    trace (snd (notify_freelancers env title budget job_id w))
    = (trace w ++ new)%list
    /\ Forall (fun a =>
         body a = NewJobAvailable title budget
         /\ exists row, row ∈ users w /\ User.user_id row = to a
                        /\ User.role row = "freelancer"
                        /\ User.is_banned row = 0) new
    /\ (NoDup (user_ids w) -> NoDup (to <$> new)).
Proof.
  unfold notify_freelancers, mbind, M_bind, try_except, bind, get_freelancers.
  unfold mbind, M_bind, bind, get, ret. fold (freelancers_of w).
  destruct (notify_loop_spec env title budget job_id (freelancers_of w) w)
    as (new & w' & -> & Htrace & Hto & Hbody).
  cbn [fst snd]. exists new. split; [exact Htrace|]. split.
  - rewrite Forall_forall in *. intros a Ha. split; [now apply Hbody|].
    apply freelancers_of_rows. rewrite <- Hto. now apply list_elem_of_fmap_2.
  - intros Hnd. rewrite Hto. unfold freelancers_of. apply NoDup_filter_ids.
    unfold user_ids in Hnd. now rewrite scan_users_Permutation.
Qed.

(** What the ban handler does to the store when the admin sends a
    well-formed command and no other connection holds the write lock. *)
Lemma handle_ban_unban_users env m w command arg rest user_id :
  is_admin env (from_user_id m) = true ->
  write_locked w = false ->
  Py.split "_"%char (text m) = command :: arg :: rest ->
  Py.int arg = Some user_id ->
  let w' := snd (handle_ban_unban env m w) in
  users w' = update_user user_id
               (with_is_banned (if String.eqb command "/ban" then 1 else 0))
               (users w)
  /\ jobs w' = jobs w
  /\ user_activity w' = user_activity w
  /\ write_locked w' = false.
Proof.
  intros Hadmin Hfree Hsplit Hint. cbn zeta.
  unfold handle_ban_unban. rewrite Hadmin, Hsplit. cbn [negb].
  unfold try_except, mbind, M_bind, bind, index, db_execute. cbn [lookup list_lookup].
  cbn -[update_user]. rewrite Hint. unfold ret. cbn -[update_user].
  rewrite Hfree. cbn -[update_user].
  destruct (String.eqb command "/ban"); cbn -[update_user];
    rewrite log_activity_eq; cbn -[update_user];
    unfold send_message; cbn -[update_user];
    match goal with
    | |- context [deliver env ?n ?c] => destruct (deliver env n c)
    end; cbn -[update_user];
    repeat match goal with
    | |- context [deliver env ?n ?c] => destruct (deliver env n c)
    end; cbn -[update_user]; auto.
Qed.

Lemma banned_not_listed (p : User.t -> bool) user_id rows :
  user_id ∉ User.user_id <$>
    List.filter (fun u => p u && (User.is_banned u =? 0))
                (update_user user_id (with_is_banned 1) rows).
Proof.
  unfold update_user. induction rows as [|r rows IH]; cbn;
    [apply not_elem_of_nil|].
  destruct (User.user_id r =? user_id) eqn:E; cbn.
  - now rewrite andb_false_r.
  - destruct (p r && (User.is_banned r =? 0)); cbn; [|exact IH].
    rewrite elem_of_cons. intros [Heq|Hin]; [|now apply IH].
    rewrite Heq, Z.eqb_refl in E. discriminate.
Qed.

(** X9: after the admin's [/ban_<id>] the user is neither among the
    freelancers that job notifications go to nor among the targets of a
    broadcast; the jobs table and the activity log are as before. *)
Theorem ban_removes_from_fan_out env m w arg rest user_id :
  is_admin env (from_user_id m) = true ->
  write_locked w = false ->
  Py.split "_"%char (text m) = "/ban" :: arg :: rest ->
  Py.int arg = Some user_id ->
  let w' := snd (handle_ban_unban env m w) in
  (user_id ∉ freelancers_of w')
  /\ (user_id ∉ broadcast_targets w')
  /\ jobs w' = jobs w
  /\ user_activity w' = user_activity w.
Proof.
  intros Hadmin Hfree Hsplit Hint.
  destruct (handle_ban_unban_users env m w "/ban" arg rest user_id
              Hadmin Hfree Hsplit Hint) as (Hu & Hj & Ha & _).
  cbn zeta. unfold freelancers_of, broadcast_targets.
  rewrite !elem_of_filter_scan.
  rewrite Hu. cbn [String.eqb Ascii.eqb Bool.eqb]. repeat split; auto.
  - apply banned_not_listed.
  - apply (banned_not_listed (fun _ => true)).
Qed.

Lemma ban_removes_from_fan_out_witness :
  let w' := snd (handle_ban_unban (Scenario.env (Some 1))
                   (Scenario.message 1 "/ban_7")
                   (Scenario.world [Scenario.ana; Scenario.ben; Scenario.cy] ∅)) in
  (7 ∉ freelancers_of w') /\ (7 ∉ broadcast_targets w')
  /\ jobs w' = [] /\ user_activity w' = [].
Proof.
  cbn zeta.
  apply (ban_removes_from_fan_out (Scenario.env (Some 1))
           (Scenario.message 1 "/ban_7")
           (Scenario.world [Scenario.ana; Scenario.ben; Scenario.cy] ∅)
           "7" [] 7); reflexivity.
Defined.

Lemma unban_after_ban user_id rows :
  Forall (fun r => User.user_id r = user_id -> User.is_banned r = 0) rows ->
  update_user user_id (with_is_banned 0)
    (update_user user_id (with_is_banned 1) rows) = rows.
Proof.
  unfold update_user. induction 1 as [|r rows Hr _ IH]; cbn; [reflexivity|].
  rewrite IH. f_equal.
  destruct (User.user_id r =? user_id) eqn:E; cbn; rewrite E; [|reflexivity].
  apply Z.eqb_eq in E. specialize (Hr E). destruct r; cbn in *. now subst.
Qed.

(** X10: a ban followed by an unban of the same id gives back the users
    table as it was, when the user was not banned before. *)
Theorem unban_undoes_ban env1 env2 m1 m2 w arg1 rest1 arg2 rest2 user_id :
  is_admin env1 (from_user_id m1) = true ->
  is_admin env2 (from_user_id m2) = true ->
  write_locked w = false ->
  Py.split "_"%char (text m1) = "/ban" :: arg1 :: rest1 ->
  Py.split "_"%char (text m2) = "/unban" :: arg2 :: rest2 ->
  Py.int arg1 = Some user_id ->
  Py.int arg2 = Some user_id ->
  Forall (fun r => User.user_id r = user_id -> User.is_banned r = 0) (users w) ->
  users (snd (handle_ban_unban env2 m2 (snd (handle_ban_unban env1 m1 w))))
  = users w.
Proof.
  intros Ha1 Ha2 Hfree Hs1 Hs2 Hi1 Hi2 Hclean.
  destruct (handle_ban_unban_users env1 m1 w "/ban" arg1 rest1 user_id
              Ha1 Hfree Hs1 Hi1) as (Hu1 & _ & _ & Hfree1).
  destruct (handle_ban_unban_users env2 m2 _ "/unban" arg2 rest2 user_id
              Ha2 Hfree1 Hs2 Hi2) as (Hu2 & _).
  rewrite Hu2, Hu1. cbn [String.eqb Ascii.eqb Bool.eqb].
  now apply unban_after_ban.
Qed.

Lemma unban_undoes_ban_witness :
  let env := Scenario.env (Some 1) in
  let w := Scenario.world [Scenario.ana; Scenario.ben] ∅ in
  users (snd (handle_ban_unban env (Scenario.message 1 "/unban_7")
                (snd (handle_ban_unban env (Scenario.message 1 "/ban_7") w))))
  = [Scenario.ana; Scenario.ben].
Proof.
  cbn zeta.
  apply (unban_undoes_ban (Scenario.env (Some 1)) (Scenario.env (Some 1))
           (Scenario.message 1 "/ban_7") (Scenario.message 1 "/unban_7")
           (Scenario.world [Scenario.ana; Scenario.ben] ∅) "7" [] "7" [] 7);
    try reflexivity.
  repeat constructor; cbn; intros; reflexivity.
Defined.

(** ** What a user cannot do to others, what a query cannot do at all *)

Lemma find_replace_user_other row rows user_id :
  user_id <> User.user_id row ->
  List.find (fun r => User.user_id r =? user_id) (replace_user row rows)
  = List.find (fun r => User.user_id r =? user_id) rows.
Proof.
  intros Hne. unfold replace_user.
  induction rows as [|r rows IH]; cbn.
  - apply Z.eqb_neq in Hne. rewrite Z.eqb_sym in Hne. now rewrite Hne.
  - destruct (User.user_id r =? User.user_id row) eqn:E; cbn.
    + apply Z.eqb_eq in E. rewrite E.
      apply Z.eqb_neq in Hne. rewrite Z.eqb_sym in Hne. now rewrite Hne.
    + destruct (User.user_id r =? user_id); [reflexivity | exact IH].
Qed.

Lemma find_update_user_other sender f rows user_id :
  user_id <> sender ->
  (forall r, User.user_id (f r) = User.user_id r) ->
  List.find (fun r => User.user_id r =? user_id) (update_user sender f rows)
  = List.find (fun r => User.user_id r =? user_id) rows.
Proof.
  intros Hne Hf. unfold update_user.
  induction rows as [|r rows IH]; cbn; [reflexivity|].
  destruct (User.user_id r =? sender) eqn:E.
  - rewrite Hf. apply Z.eqb_eq in E. rewrite E.
    apply Z.eqb_neq in Hne. rewrite Z.eqb_sym in Hne. now rewrite Hne.
  - destruct (User.user_id r =? user_id); [reflexivity | exact IH].
Qed.

#[global] Instance others_kept_frame sender : Frame (others_kept sender).
Proof.
  split; unfold others_kept; intros; cbn in *; auto.
  rewrite H0, H; auto.
Qed.

Ltac solve_others_write :=
  intros; unfold others_kept, select_user; cbn; intros;
  first [ reflexivity
        | apply find_replace_user_other; cbn; congruence
        | apply find_update_user_other; [congruence | reflexivity] ].

Ltac frame_others :=
  repeat first
    [ frame_step
    | apply preserves_log_activity; [exact _ | solve_others_write]
    | apply preserves_db_write; [exact _ | solve_others_write]
    | apply preserves_db_commit; [exact _ | solve_others_write] ].

Lemma handlers_keep_others env m :
  is_admin env (from_user_id m) = false ->
  Forall (fun h => preserves (others_kept (from_user_id m)) (snd h m))
         (message_handlers env).
Proof.
  intros Hadmin.
  each_handler ltac:(rewrite ?Hadmin; cbn [negb]; frame_others).
Qed.

(** X11: a message from a user who is not the admin changes no row of
    any other user. *)
Theorem process_message_keeps_other_users env m w user_id :
  is_admin env (from_user_id m) = false ->
  user_id <> from_user_id m ->
  select_user user_id (snd (process_message env m w)) = select_user user_id w.
Proof.
  intros Hadmin Hne.
  apply (process_message_preserves _ env m (handlers_keep_others env m Hadmin) w).
  exact Hne.
Qed.

Lemma process_message_keeps_other_users_witness :
  let w := Scenario.world [Scenario.ana; Scenario.ben] ∅ in
  select_user 7 (snd (process_message (Scenario.env (Some 1))
                        (Scenario.message 3 "/ban_7") w))
  = Some Scenario.ana.
Proof.
  cbn zeta.
  apply (process_message_keeps_other_users (Scenario.env (Some 1))
           (Scenario.message 3 "/ban_7")
           (Scenario.world [Scenario.ana; Scenario.ben] ∅) 7).
  - reflexivity.
  - cbn. lia.
Defined.

#[global] Instance same_tables_frame : Frame same_tables.
Proof.
  split; unfold same_tables; intros; cbn in *; try (repeat split; reflexivity).
  intuition congruence.
Qed.

Ltac frame_read_only := repeat frame_step.

(** X12: the admin reports, the broadcast draft and [/getid] are queries:
    whoever sends them and whatever the text, the four tables and their
    counters are unchanged. *)
Theorem queries_never_write env m :
  preserves same_tables (get_id_command env m)
  /\ preserves same_tables (admin_dashboard env m)
  /\ preserves same_tables (admin_users env m)
  /\ preserves same_tables (admin_all_jobs env m)
  /\ preserves same_tables (view_user_detail env m)
  /\ preserves same_tables (daily_report env m)
  /\ preserves same_tables (analytics env m)
  /\ preserves same_tables (broadcast_message env m).
Proof.
  repeat apply conj; unfold_handlers; frame_read_only.
Qed.

(** ** Routing *)

Lemma role_text_is_no_command commands m :
  is_role_text m = true -> is_command commands m = false.
Proof.
  unfold is_role_text. cbn [existsb]. rewrite orb_false_r.
  intros [H|H]%orb_prop; apply String.eqb_eq in H;
    unfold is_command, extract_command; rewrite H; reflexivity.
Qed.

Lemma process_message_role_text env m w :
  is_role_text m = true -> process_message env m w = choose_role env m w.
Proof.
  intros Hrole. unfold process_message, message_handlers. cbn [List.find fst snd].
  now rewrite (role_text_is_no_command _ m Hrole), Hrole.
Qed.

(** X13: a role button restarts the conversation whatever its state: the
    conversation state of the sender becomes the first step of the chosen
    role and nothing else, so a title or description accumulated so far is
    dropped; no job is created. *)
Theorem role_button_restarts_conversation env m w :
  is_role_text m = true ->
  write_locked w = false ->
  let w' := snd (process_message env m w) in
  user_state w' !! from_user_id m
  = Some {["step" := if Py.contains "Freelancer" (text m)
                     then "ask_skills" else "job_title"]}
  /\ jobs w' = jobs w.
Proof.
  intros Hrole Hfree. cbn zeta. rewrite process_message_role_text by assumption.
  unfold choose_role, mbind, M_bind, bind.
  rewrite log_activity_eq, Hfree. unfold save_user, db_write. cbn [write_locked add_activity].
  rewrite Hfree. cbv beta iota.
  destruct (Py.contains "Freelancer" (text m)); cbn [String.eqb Ascii.eqb Bool.eqb];
    unfold modify, send_message; cbv beta iota;
    match goal with
    | |- context [deliver env ?n ?c] => destruct (deliver env n c)
    end; cbn; split; try reflexivity; apply lookup_insert_eq.
Qed.

Lemma role_button_restarts_conversation_witness :
  let d : gmap string string :=
    <["title" := "Logo design"]> {["step" := "job_description"]} in
  let w := Scenario.world [Scenario.ben] {[3 := d]} in
  let w' := snd (process_message (Scenario.env None)
                   (Scenario.message 3 CLIENT_BUTTON) w) in
  user_state w' !! 3 = Some {["step" := "job_title"]} /\ jobs w' = [].
Proof.
  cbn zeta.
  apply (role_button_restarts_conversation (Scenario.env None)
           (Scenario.message 3 CLIENT_BUTTON)
           (Scenario.world [Scenario.ben]
              {[3 := <["title" := "Logo design"]> {["step" := "job_description"]}]}));
    reflexivity.
Defined.

(** X14: while a conversation step is pending, every text except [/start]
    and the role buttons is taken as the answer to that step, commands
    included. *)
Theorem pending_step_consumes_text env m w :
  is_command ["start"] m = false ->
  is_role_text m = false ->
  (in_step "ask_skills" w m = true ->
   process_message env m w = handle_skills env m w)
  /\ (in_step "ask_location" w m = true ->
      process_message env m w = handle_location env m w)
  /\ (in_step "job_title" w m = true ->
      process_message env m w = handle_job_title env m w)
  /\ (in_step "job_description" w m = true ->
      process_message env m w = handle_job_description env m w)
  /\ (in_step "job_budget" w m = true ->
      process_message env m w = handle_job_budget env m w).
Proof.
  intros Hstart Hrole.
  repeat apply conj; intros Hstep;
    unfold process_message, message_handlers; cbn [List.find fst snd];
    rewrite Hstart, Hrole, Hstep;
    rewrite ?(in_step_unique _ _ w m Hstep) by discriminate;
    reflexivity.
Qed.

Lemma pending_step_consumes_text_witness :
  let env := Scenario.env None in
  let w := Scenario.world [Scenario.ana] {[7 := {["step" := "ask_skills"]}]} in
  process_message env (Scenario.message 7 "/jobs") w
  = handle_skills env (Scenario.message 7 "/jobs") w.
Proof.
  cbn zeta.
  assert (Hstart : is_command ["start"] (Scenario.message 7 "/jobs") = false)
    by (vm_compute; reflexivity).
  assert (Hrole : is_role_text (Scenario.message 7 "/jobs") = false)
    by (vm_compute; reflexivity).
  destruct (pending_step_consumes_text (Scenario.env None)
              (Scenario.message 7 "/jobs")
              (Scenario.world [Scenario.ana] {[7 := {["step" := "ask_skills"]}]})
              Hstart Hrole) as (Hskills & _).
  apply Hskills. vm_compute. reflexivity.
Defined.

(** The command [/jobs] sent at the skills step ends up as the skills. *)
Example command_stored_as_skills :
  let env := Scenario.env None in
  let w := Scenario.world [Scenario.ana] {[7 := {["step" := "ask_skills"]}]} in
  User.skills <$> users (snd (process_message env (Scenario.message 7 "/jobs") w))
  = ["/jobs"].
Proof. vm_compute. reflexivity. Qed.

Lemma unknown_command_not_listed c commands m :
  extract_command (text m) = Some c ->
  existsb (String.eqb c) known_commands = false ->
  (forall x, In x commands -> In x known_commands) ->
  is_command commands m = false.
Proof.
  intros Hc Hunknown Hsub. unfold is_command. rewrite Hc.
  apply not_true_is_false. intros (x & Hx & Heq)%existsb_exists.
  apply not_true_iff_false in Hunknown. apply Hunknown.
  apply existsb_exists. exists x. auto.
Qed.

(** X15: a text in command form that names no command with a handler,
    from a user without conversation state, is answered with the list of
    commands, and the first 50 characters are logged (when the database
    is not locked by another connection). *)
Theorem unknown_command_is_answered env m w c :
  extract_command (text m) = Some c ->
  existsb (String.eqb c) known_commands = false ->
  is_ban_text m = false ->
  user_state w !! from_user_id m = None ->
  write_locked w = false ->
  let r := process_message env m w in
  trace (snd r) =
    (trace w ++ [ {| to := chat_id m; edited := None; body := UnknownCommand;
                     delivered := deliver env (length (trace w)) (chat_id m) |} ])%list
  /\ user_activity (snd r) =
       (user_activity w ++
        [Activity.mk (activity_seq w + 1) (from_user_id m) "unknown_command"
           (Py.take 50 (text m)) (now env)])%list.
Proof.
  intros Hc Hunknown Hban Hnone Hfree. cbn zeta.
  assert (Hslash : Py.startswith "/" (text m) = true).
  { unfold extract_command in Hc.
    destruct (Py.startswith "/" (text m)); [reflexivity | discriminate]. }
  assert (Hrole : is_role_text m = false).
  { destruct (is_role_text m) eqn:E; [|reflexivity].
    pose proof (role_text_is_no_command ["start"] m E) as H.
    unfold is_command in H. rewrite Hc in H.
    unfold is_role_text in E. cbn [existsb] in E. rewrite orb_false_r in E.
    apply orb_prop in E as [E|E]; apply String.eqb_eq in E;
      rewrite E in Hslash; discriminate. }
  assert (Hcmd : forall commands,
             (forall x, In x commands -> In x known_commands) ->
             is_command commands m = false).
  { intros commands. now apply unknown_command_not_listed with c. }
  unfold process_message, message_handlers. cbn [List.find fst snd].
  rewrite !Hcmd, Hrole, Hban, !no_state_no_step by
    (assumption || (intros x [<-|[]]; unfold known_commands; cbn; tauto)).
  cbn [snd]. unfold handle_unknown, mbind, M_bind, bind.
  rewrite log_activity_eq, Hfree, Hslash. cbn.
  unfold send_message. cbn.
  destruct (deliver env (length (trace w)) (chat_id m)); cbn; auto.
Qed.

Lemma unknown_command_is_answered_witness :
  let r := process_message (Scenario.env None) (Scenario.message 7 "/apply 12")
             (Scenario.world [Scenario.ana] ∅) in
  trace (snd r) =
    [ {| to := 7; edited := None; body := UnknownCommand; delivered := true |} ]
  /\ user_activity (snd r) =
       [Activity.mk 1 7 "unknown_command" "/apply 12" 1700000000].
Proof.
  cbn zeta.
  apply (unknown_command_is_answered (Scenario.env None)
           (Scenario.message 7 "/apply 12") (Scenario.world [Scenario.ana] ∅)
           "apply"); reflexivity.
Defined.

(** ** The broadcast draft *)

Lemma split1_no_separator sep s :
  ~ In sep (list_ascii_of_string s) -> Py.split1 sep s = [s].
Proof.
  induction s as [|c s IH]; cbn; [reflexivity|].
  intros Hnot. destruct (Ascii.eqb c sep) eqn:E.
  - apply Ascii.eqb_eq in E. tauto.
  - rewrite IH by tauto. reflexivity.
Qed.

(** X16: [/broadcast] followed by a text that is set off by a line break
    or a tab, with no space anywhere, passes the word count but has
    nothing after a first space: the handler raises [IndexError], sends
    nothing and leaves the world as it is. *)
Theorem broadcast_without_space_raises env m w :
  is_admin env (from_user_id m) = true ->
  (2 <= length (Py.split_ws (text m)))%nat ->
  ~ In " "%char (list_ascii_of_string (text m)) ->
  broadcast_message env m w = (Raise IndexError, w).
Proof.
  intros Hadmin Hwords Hspace. unfold broadcast_message.
  rewrite Hadmin. cbn [negb].
  apply Nat.ltb_ge in Hwords. rewrite Hwords.
  now rewrite split1_no_separator by assumption.
Qed.

Lemma broadcast_without_space_raises_witness :
  let m := Scenario.message 1 ("/broadcast" +:+ String "010"%char "Maintenance") in
  let w := Scenario.world [Scenario.ana] ∅ in
  broadcast_message (Scenario.env (Some 1)) m w = (Raise IndexError, w).
Proof.
  cbn zeta.
  apply (broadcast_without_space_raises (Scenario.env (Some 1))
           (Scenario.message 1 ("/broadcast" +:+ String "010"%char "Maintenance"))
           (Scenario.world [Scenario.ana] ∅)).
  - reflexivity.
  - vm_compute. lia.
  - vm_compute. intuition discriminate.
Defined.

Lemma words_go_cons c s :
  Py.words_go (String c s) =
  let '(w, ws) := Py.words_go s in
  if Py.is_space c
  then (EmptyString, match w with EmptyString => ws | _ => w :: ws end)
  else (String c w, ws).
Proof. reflexivity. Qed.

Lemma split_ws_after_command t :
  Py.split_ws ("/broadcast " +:+ t) = "/broadcast" :: Py.split_ws t.
Proof.
  unfold Py.split_ws. cbv [String.append]. rewrite !words_go_cons.
  destruct (Py.words_go t) as [w ws]. vm_compute. reflexivity.
Qed.

(** X17: for [/broadcast ] followed by a text [t] with at least one
    word, the admin gets one confirmation whose button carries the token
    of the whole of [t] and whose preview is the first 100 characters of
    [t]; when [t] has no word the admin gets the usage message. *)
Theorem broadcast_draft_carries_token env m w t :
  is_admin env (from_user_id m) = true ->
  text m = "/broadcast " +:+ t ->
  broadcast_message env m w =
  send_message env (chat_id m)
    (match Py.split_ws t with
     | [] => BroadcastUsage
     | _ => BroadcastConfirmation (Py.take 100 t) (confirm_token t)
              "cancel_broadcast"
     end) w.
Proof.
  intros Hadmin Htext. unfold broadcast_message.
  rewrite Hadmin, Htext, split_ws_after_command. cbn [negb length].
  destruct (Py.split_ws t) as [|word words]; reflexivity.
Qed.

Lemma broadcast_draft_carries_token_witness :
  let w := Scenario.world [Scenario.ana] ∅ in
  broadcast_message (Scenario.env (Some 1))
    (Scenario.message 1 "/broadcast Sale: 50% off") w
  = send_message (Scenario.env (Some 1)) 1
      (BroadcastConfirmation "Sale: 50% off" "confirm_broadcast:Sale: 50% off"
         "cancel_broadcast") w.
Proof.
  cbn zeta.
  apply (broadcast_draft_carries_token (Scenario.env (Some 1))
           (Scenario.message 1 "/broadcast Sale: 50% off")
           (Scenario.world [Scenario.ana] ∅) "Sale: 50% off"); reflexivity.
Defined.

(** ** The metrics *)

Lemma elem_of_filter_dates (p : Metric.t -> bool) rows (x : Z) :
  x ∈ Metric.date <$> List.filter p rows -> x ∈ Metric.date <$> rows.
Proof.
  induction rows as [|r rows IH]; cbn; [auto|].
  destruct (p r); cbn; rewrite ?elem_of_cons; intuition.
Qed.

Lemma NoDup_filter_dates (p : Metric.t -> bool) rows :
  NoDup (Metric.date <$> rows) -> NoDup (Metric.date <$> List.filter p rows).
Proof.
  induction rows as [|r rows IH]; cbn; [auto|].
  rewrite NoDup_cons. intros [Hr Hnd].
  destruct (p r); cbn; [|auto].
  apply NoDup_cons. split; [|auto].
  intros Hin. apply Hr. now apply elem_of_filter_dates in Hin.
Qed.

Lemma NoDup_replace_metric row rows :
  NoDup (Metric.date <$> rows) ->
  NoDup (Metric.date <$> replace_metric row rows).
Proof.
  intros Hnd. unfold replace_metric. rewrite fmap_app. cbn.
  apply NoDup_app. split; [now apply NoDup_filter_dates|]. split.
  - intros x Hx Hin. apply list_elem_of_singleton in Hin. subst x.
    apply list_elem_of_fmap in Hx as (r & Hd & Hr).
    apply list_elem_of_In, List.filter_In in Hr as [_ Hr].
    rewrite Hd, Z.eqb_refl in Hr. discriminate.
  - apply NoDup_singleton.
Qed.

#[global] Instance keeps_metric_key_frame : Frame keeps_metric_key.
Proof. split; unfold keeps_metric_key; intros; cbn in *; auto. Qed.

Ltac solve_metric_write :=
  intros; unfold keeps_metric_key, metric_dates; cbn;
  first [ exact id | apply NoDup_replace_metric ].

Ltac frame_metric_key :=
  repeat first
    [ frame_step
    | apply preserves_log_activity; [exact _ | solve_metric_write]
    | apply preserves_db_write; [exact _ | solve_metric_write]
    | apply preserves_db_commit; [exact _ | solve_metric_write] ].

Lemma handlers_keep_metric_key env m :
  Forall (fun h => preserves keeps_metric_key (snd h m)) (message_handlers env).
Proof. each_handler frame_metric_key. Qed.

Lemma process_update_keeps_metric_key env u :
  preserves keeps_metric_key (process_update env u).
Proof.
  destruct u as [m|call|]; cbn [process_update].
  - apply process_message_preserves; [exact _ | apply handlers_keep_metric_key].
  - unfold process_callback, handle_callback, send_broadcast. frame_metric_key.
  - unfold update_daily_metrics. frame_metric_key.
Qed.

(** X18: whatever updates and aggregator runs take place, and whichever
    of them fail on a locked database, [daily_metrics] keeps at most one
    row per date. *)
Theorem run_keeps_one_row_per_date events w :
  NoDup (metric_dates w) -> NoDup (metric_dates (run events w)).
Proof.
  apply (run_preserves keeps_metric_key process_update_keeps_metric_key).
Qed.

Lemma run_keeps_one_row_per_date_witness :
  let env := Scenario.env (Some 1) in
  let next_day := {| ADMIN_ID := Some 1; now := 1700000000 + 86400;
                     tz := 28800; deliver := fun _ _ => true |} in
  let events :=
    [ (env, MetricsRun);
      (env, IncomingMessage (Scenario.message 7 CLIENT_BUTTON));
      (env, MetricsRun);
      (next_day, MetricsRun) ] in
  NoDup (metric_dates (run events (Scenario.world [Scenario.ana] ∅))).
Proof.
  cbn zeta. apply run_keeps_one_row_per_date.
  apply (bool_decide_unpack _). vm_compute. exact I.
Defined.

Lemma remove_dups_snoc (l : list Z) (x : Z) :
  length (remove_dups (l ++ [x])) =
  (length (remove_dups l) + (if bool_decide (x ∈ l) then 0 else 1))%nat.
Proof.
  induction l as [|y l IH]; [reflexivity|].
  cbn [app remove_dups].
  destruct (decide_rel elem_of y (l ++ [x])%list) as [Hin|Hnin];
    destruct (decide_rel elem_of y l) as [Hyl|Hyl];
    cbn [length]; rewrite IH.
  - destruct (bool_decide (x ∈ l)) eqn:E1, (bool_decide (x ∈ y :: l)) eqn:E2;
      try lia.
    + apply bool_decide_eq_true in E1. apply bool_decide_eq_false in E2.
      exfalso. apply E2. apply elem_of_cons. now right.
    + apply bool_decide_eq_false in E1. apply bool_decide_eq_true in E2.
      apply elem_of_cons in E2 as [->|E2]; [|tauto]. tauto.
  - apply elem_of_app in Hin as [Hin|Hin]; [tauto|].
    apply list_elem_of_singleton in Hin. subst y.
    rewrite (bool_decide_eq_false_2 (x ∈ l)) by assumption.
    rewrite (bool_decide_eq_true_2 (x ∈ x :: l)) by (apply elem_of_cons; now left).
    lia.
  - exfalso. apply Hnin. apply elem_of_app. now left.
  - assert (x <> y).
    { intros ->. apply Hnin. apply elem_of_app. right.
      now apply list_elem_of_singleton. }
    destruct (bool_decide (x ∈ l)) eqn:E1, (bool_decide (x ∈ y :: l)) eqn:E2;
      try lia.
    + apply bool_decide_eq_true in E1. apply bool_decide_eq_false in E2.
      exfalso. apply E2. apply elem_of_cons. now right.
    + apply bool_decide_eq_false in E1. apply bool_decide_eq_true in E2.
      apply elem_of_cons in E2 as [?|E2]; tauto.
Qed.

(** X19: the active users of a day are counted once each.  An event
    logged while local and UTC date agree adds one to the day's active
    users when it is the first of its user that day, and nothing
    otherwise. *)
Theorem active_users_counts_each_user_once env user_id action details w :
  write_locked w = false ->
  DATE (now env) = today env ->
  Metric.active_users
    (todays_metric env (snd (log_activity env user_id action details w)))
  = Metric.active_users (todays_metric env w)
    + (if bool_decide (user_id ∈ active_today env w) then 0 else 1).
Proof.
  intros Hfree Hday. rewrite log_activity_eq, Hfree. cbn [snd].
  unfold todays_metric, count_distinct_users, active_today.
  cbn [Metric.active_users user_activity add_activity].
  rewrite List.filter_app. cbn [List.filter Activity.timestamp].
  rewrite Hday, Z.eqb_refl, fmap_app. cbn [fmap list_fmap Activity.user_id].
  rewrite remove_dups_snoc.
  destruct (bool_decide _); lia.
Qed.

Lemma active_users_counts_each_user_once_witness :
  let env := {| ADMIN_ID := None; now := 1700000000; tz := 0;
                deliver := fun _ _ => true |} in
  let w := snd (log_activity env 7 "view_jobs" "Browsed job listings"
                  (Scenario.world [Scenario.ana] ∅)) in
  Metric.active_users
    (todays_metric env (snd (log_activity env 7 "view_help" "Viewed help" w)))
  = 1.
Proof.
  cbn zeta.
  rewrite (active_users_counts_each_user_once
             {| ADMIN_ID := None; now := 1700000000; tz := 0;
                deliver := fun _ _ => true |} 7 "view_help" "Viewed help");
    reflexivity.
Defined.

Lemma filter_filter_and {A : Type} (p q : A -> bool) l :
  List.filter p (List.filter q l) = List.filter (fun x => p x && q x) l.
Proof.
  induction l as [|x l IH]; cbn; [reflexivity|].
  destruct (q x); cbn; rewrite ?andb_true_r, ?andb_false_r;
    [destruct (p x)|]; now rewrite IH.
Qed.

(** X20: a role selection counts as a new user of the current local day
    exactly when the UTC date of the clock is that day, and it counts
    again for a user who was registered before: the new-users figure
    after [save_user] is the number of other users created that day,
    plus one if the two dates agree. *)
Theorem save_user_counts_as_new_user env user_id username role w :
  write_locked w = false ->
  Metric.new_users (todays_metric env (snd (save_user env user_id username role w)))
  = count_where (fun u => (DATE (User.created u) =? today env)
                          && negb (User.user_id u =? user_id)) (users w)
    + (if DATE (now env) =? today env then 1 else 0).
Proof.
  intros Hfree. unfold save_user, db_write. rewrite Hfree. cbn [snd].
  unfold todays_metric, count_where, replace_user.
  cbn [Metric.new_users users set_users User.user_id].
  rewrite List.filter_app, length_app, filter_filter_and.
  cbn [List.filter User.created].
  destruct (DATE (now env) =? today env); cbn [length]; lia.
Qed.

Lemma save_user_counts_as_new_user_witness :
  let env := {| ADMIN_ID := None; now := 1700000000; tz := 0;
                deliver := fun _ _ => true |} in
  Metric.new_users
    (todays_metric env (snd (save_user env 7 "ana" "client"
                               (Scenario.world [Scenario.ana; Scenario.ben] ∅))))
  = 1.
Proof.
  cbn zeta.
  rewrite (save_user_counts_as_new_user
             {| ADMIN_ID := None; now := 1700000000; tz := 0;
                deliver := fun _ _ => true |} 7 "ana" "client");
    reflexivity.
Defined.

Lemma find_replace_metric row rows :
  List.find (fun r => Metric.date r =? Metric.date row) (replace_metric row rows)
  = Some row.
Proof.
  unfold replace_metric. induction rows as [|r rows IH]; cbn.
  - now rewrite Z.eqb_refl.
  - destruct (Metric.date r =? Metric.date row) eqn:E; cbn; [exact IH|].
    now rewrite E.
Qed.

Lemma DATE_yesterday x : DATE (x - 86400) = DATE x - 1.
Proof.
  unfold DATE. replace (x - 86400) with (x + (-1) * 86400) by lia.
  rewrite Z.div_add by lia. lia.
Qed.

(** X21: the daily report of the admin shows what the aggregator stored
    the day before: after a run on local day D, [/dailyreport] on day
    D + 1 answers with the row computed by that run. *)
Theorem daily_report_shows_yesterdays_run env1 env2 m w :
  write_locked w = false ->
  is_admin env2 (from_user_id m) = true ->
  today env2 = today env1 + 1 ->
  let w1 := snd (update_daily_metrics env1 w) in
  daily_report env2 m w1
  = send_message env2 (chat_id m) (DailyReport (todays_metric env1 w)) w1.
Proof.
  intros Hfree Hadmin Hday. cbn zeta.
  rewrite update_daily_metrics_eq, Hfree. cbn [snd].
  unfold daily_report, mbind, M_bind, bind, get. rewrite Hadmin. cbn [negb].
  cbn [daily_metrics set_daily_metrics].
  rewrite DATE_yesterday. fold (today env2). rewrite Hday.
  replace (today env1 + 1 - 1) with (Metric.date (todays_metric env1 w))
    by (cbn; lia).
  now rewrite find_replace_metric.
Qed.

Lemma daily_report_shows_yesterdays_run_witness :
  let env1 := Scenario.env (Some 1) in
  let env2 := {| ADMIN_ID := Some 1; now := 1700000000 + 86400; tz := 28800;
                 deliver := fun _ _ => true |} in
  let w := Scenario.world [Scenario.ana] ∅ in
  let w1 := snd (update_daily_metrics env1 w) in
  daily_report env2 (Scenario.message 1 "/dailyreport") w1
  = send_message env2 1 (DailyReport (todays_metric env1 w)) w1.
Proof.
  cbn zeta.
  apply (daily_report_shows_yesterdays_run (Scenario.env (Some 1))
           {| ADMIN_ID := Some 1; now := 1700000000 + 86400; tz := 28800;
              deliver := fun _ _ => true |}
           (Scenario.message 1 "/dailyreport")
           (Scenario.world [Scenario.ana] ∅)); reflexivity.
Defined.

(** ** Listings *)

#[global] Instance newest_first_transitive {A : Type} (key : A -> Z) :
  Transitive (fun a b => key b <= key a).
Proof. intros a b c. lia. Qed.

(** [ORDER BY key DESC LIMIT n]: at most [n] rows of the table, sorted,
    and no row that is left out has a larger key than a row that is
    kept. *)
Lemma newest_first_spec {A : Type} (key : A -> Z) (n : nat) (l : list A) :
  (length (take n (order_desc key l)) <= n)%nat
  /\ Forall (fun x => x ∈ l) (take n (order_desc key l))
  /\ StronglySorted (fun a b => key b <= key a) (take n (order_desc key l))
  /\ (forall x, x ∈ l -> x ∉ take n (order_desc key l) ->
        Forall (fun r => key x <= key r) (take n (order_desc key l)))
  /\ (l = [] <-> order_desc key l = []).
Proof.
  unfold order_desc.
  set (R := fun a b => key b <= key a).
  set (sorted := sort_rows (fun a b => key b <=? key a) l).
  assert (Hperm : sorted ≡ₚ l) by apply sort_rows_Permutation.
  assert (Hsorted : StronglySorted R sorted).
  { apply sort_rows_sorted; [| |exact _]; unfold R.
    - intros a b. apply Z.leb_le.
    - intros a b H%Z.leb_gt. lia. }
  rewrite <- (take_drop n sorted) in Hsorted.
  repeat apply conj.
  - rewrite length_take. lia.
  - apply Forall_forall. intros x Hx. rewrite <- Hperm.
    now apply (subseteq_take n sorted).
  - now apply StronglySorted_app_1_l in Hsorted.
  - intros x Hx Hout. apply Forall_forall. intros r Hr.
    rewrite <- Hperm, <- (take_drop n sorted), elem_of_app in Hx.
    destruct Hx as [Hx|Hx]; [tauto|].
    apply (StronglySorted_app_1_elem_of R _ _ r x Hsorted Hr Hx).
  - intros ->. reflexivity.
  - intros H. fold sorted in H. rewrite H in Hperm.
    symmetry in Hperm. now apply Permutation_nil_r in Hperm.
Qed.

(** X22: [get_jobs] returns at most 10 jobs, all of them open rows of the
    jobs table, sorted by id from the newest down; an open job that is
    left out has no larger id than any job listed; the list is empty
    exactly when no job is open. *)
Theorem get_jobs_lists_newest_open_jobs w :
  exists rows,
    get_jobs w = (Ok rows, w)
    /\ (length rows <= 10)%nat
    /\ Forall (fun j => j ∈ jobs w /\ Job.status j = "open") rows
    /\ StronglySorted (fun a b => Job.id b <= Job.id a) rows
    /\ (forall j, j ∈ open_jobs w -> j ∉ rows ->
          Forall (fun r => Job.id j <= Job.id r) rows)
    /\ (rows = [] <-> open_jobs w = []).
Proof.
  eexists. split; [reflexivity|]. fold (open_jobs w).
  destruct (newest_first_spec Job.id 10 (open_jobs w))
    as (Hlen & Hin & Hsorted & Hnewest & Hnil).
  repeat apply conj; try assumption.
  - eapply Forall_impl; [exact Hin|]. cbn. intros j Hj.
    apply list_elem_of_In, List.filter_In in Hj as [Hj Hopen].
    split; [now apply list_elem_of_In | now apply String.eqb_eq].
  - intros H. apply Hnil.
    destruct (order_desc Job.id (open_jobs w)); [reflexivity | discriminate].
  - intros H. apply Hnil in H. now rewrite H.
Qed.

(** ** The freelancer profile *)

Lemma find_update_user_same user_id f rows :
  (forall r, User.user_id (f r) = User.user_id r) ->
  List.find (fun r => User.user_id r =? user_id) (update_user user_id f rows)
  = f <$> List.find (fun r => User.user_id r =? user_id) rows.
Proof.
  intros Hf. unfold update_user.
  induction rows as [|r rows IH]; cbn; [reflexivity|].
  destruct (User.user_id r =? user_id) eqn:E.
  - now rewrite Hf, E.
  - rewrite E. exact IH.
Qed.

Lemma handle_skills_world env m w :
  write_locked w = false ->
  let w' := snd (handle_skills env m w) in
  users w' = update_user (from_user_id m) (with_skills (text m)) (users w)
  /\ user_state w' = <[from_user_id m := {["step" := "ask_location"]}]> (user_state w)
  /\ write_locked w' = false.
Proof.
  intros Hfree. cbn zeta. unfold handle_skills, mbind, M_bind, bind.
  rewrite log_activity_eq, Hfree. unfold db_write. cbn [write_locked add_activity].
  rewrite Hfree. cbv beta iota. unfold modify, send_message. cbv beta iota.
  match goal with
  | |- context [deliver env ?n ?c] => destruct (deliver env n c)
  end; cbn -[update_user]; auto.
Qed.

Lemma handle_location_world env m w :
  write_locked w = false ->
  let w' := snd (handle_location env m w) in
  users w' = update_user (from_user_id m) (with_location (text m)) (users w)
  /\ user_state w' = delete (from_user_id m) (user_state w).
Proof.
  intros Hfree. cbn zeta. unfold handle_location, mbind, M_bind, bind.
  rewrite log_activity_eq, Hfree. unfold db_write. cbn [write_locked add_activity].
  rewrite Hfree. cbv beta iota. unfold modify, send_message. cbv beta iota.
  match goal with
  | |- context [deliver env ?n ?c] => destruct (deliver env n c)
  end; cbn -[update_user]; auto.
Qed.

(** X23: a registered user who answers the skills step and then the
    location step ends with both texts stored whole in the own row, the
    other columns as they were, and with no conversation state; this does
    not depend on what the transport delivers. *)
Theorem freelancer_profile_persisted env1 env2 m1 m2 w row :
  from_user_id m2 = from_user_id m1 ->
  select_user (from_user_id m1) w = Some row ->
  write_locked w = false ->
  let w2 := snd (handle_location env2 m2 (snd (handle_skills env1 m1 w))) in
  select_user (from_user_id m1) w2
  = Some (with_location (text m2) (with_skills (text m1) row))
  /\ user_state w2 !! from_user_id m1 = None.
Proof.
  intros Hsame Hrow Hfree. cbn zeta.
  destruct (handle_skills_world env1 m1 w Hfree) as (Hu1 & Hs1 & Hfree1).
  destruct (handle_location_world env2 m2 _ Hfree1) as (Hu2 & Hs2).
  unfold select_user in *. rewrite Hu2, Hu1, Hs2, Hsame.
  rewrite !find_update_user_same by reflexivity. rewrite Hrow. cbn.
  split; [reflexivity | apply lookup_delete_eq].
Qed.

Lemma freelancer_profile_persisted_witness :
  let env := Scenario.env_blocked None 7 in
  let row := User.mk 7 "ana" "freelancer" "" "" 0 1690000000 in
  let w := Scenario.world [row] {[7 := {["step" := "ask_skills"]}]} in
  let w2 := snd (handle_location env (Scenario.message 7 "Cebu City")
                   (snd (handle_skills env (Scenario.message 7 "Writing, editing") w))) in
  select_user 7 w2
  = Some (User.mk 7 "ana" "freelancer" "Writing, editing" "Cebu City" 0 1690000000)
  /\ user_state w2 !! 7 = None.
Proof.
  cbn zeta.
  apply (freelancer_profile_persisted (Scenario.env_blocked None 7)
           (Scenario.env_blocked None 7)
           (Scenario.message 7 "Writing, editing") (Scenario.message 7 "Cebu City")
           (Scenario.world [User.mk 7 "ana" "freelancer" "" "" 0 1690000000]
              {[7 := {["step" := "ask_skills"]}]})
           (User.mk 7 "ana" "freelancer" "" "" 0 1690000000)); reflexivity.
Defined.

(** ** The AUTOINCREMENT ids *)

#[global] Instance keeps_fresh_ids_frame : Frame keeps_fresh_ids.
Proof. split; unfold keeps_fresh_ids; intros; cbn in *; auto. Qed.

Lemma fresh_ids_add_activity user_id action details ts w :
  fresh_ids w ->
  fresh_ids (add_activity
               (Activity.mk (activity_seq w + 1) user_id action details ts) w).
Proof.
  intros (Hj & Hjn & Ha & Han). unfold fresh_ids. cbn.
  repeat apply conj; try assumption.
  - apply Forall_app. split.
    + eapply Forall_impl; [exact Ha|]. cbn. intros; lia.
    + repeat constructor. cbn. lia.
  - rewrite fmap_app. apply NoDup_app. repeat apply conj.
    + exact Han.
    + intros x Hx Hin. apply list_elem_of_singleton in Hin. subst x.
      apply list_elem_of_fmap in Hx as (a & Hid & Hin).
      rewrite Forall_forall in Ha. specialize (Ha a Hin). cbn in Hid. lia.
    + apply NoDup_singleton.
Qed.

Lemma fresh_ids_add_job client_id title description budget status ts w :
  fresh_ids w ->
  fresh_ids (add_job
               (Job.mk (jobs_seq w + 1) client_id title description budget
                       status ts) w).
Proof.
  intros (Hj & Hjn & Ha & Han). unfold fresh_ids. cbn.
  repeat apply conj; try assumption.
  - apply Forall_app. split.
    + eapply Forall_impl; [exact Hj|]. cbn. intros; lia.
    + repeat constructor. cbn. lia.
  - rewrite fmap_app. apply NoDup_app. repeat apply conj.
    + exact Hjn.
    + intros x Hx Hin. apply list_elem_of_singleton in Hin. subst x.
      apply list_elem_of_fmap in Hx as (j & Hid & Hin).
      rewrite Forall_forall in Hj. specialize (Hj j Hin). cbn in Hid. lia.
    + apply NoDup_singleton.
Qed.

Lemma log_activity_keeps_fresh_ids env user_id action details :
  preserves keeps_fresh_ids (log_activity env user_id action details).
Proof.
  intros w. rewrite log_activity_eq. cbn [snd].
  destruct (write_locked w); [apply frame_refl|].
  intros H. now apply fresh_ids_add_activity.
Qed.

Lemma create_job_keeps_fresh_ids env client_id title description budget :
  preserves keeps_fresh_ids (create_job env client_id title description budget).
Proof.
  intros w. unfold create_job, mbind, M_bind, bind, get, db_write, ret.
  destruct (write_locked w); cbn; [apply frame_refl|].
  intros H. now apply fresh_ids_add_job.
Qed.

Ltac frame_fresh_ids :=
  repeat first
    [ apply log_activity_keeps_fresh_ids
    | apply create_job_keeps_fresh_ids
    | frame_step
    | apply preserves_db_write; [exact _ | intros ? H; exact H]
    | apply preserves_db_commit; [exact _ | intros ? H; exact H] ].

Lemma handlers_keep_fresh_ids env m :
  Forall (fun h => preserves keeps_fresh_ids (snd h m)) (message_handlers env).
Proof.
  unfold message_handlers;
  repeat (apply Forall_cons; split;
          [cbn [snd];
           unfold start, choose_role, save_user, handle_skills, handle_location,
             handle_job_title, handle_job_description, handle_job_budget,
             notify_freelancers, notify_one, list_jobs_command, profile_command,
             help_command, get_id_command, admin_dashboard, admin_users,
             admin_all_jobs, view_user_detail, handle_ban_unban, daily_report,
             analytics, broadcast_message, handle_unknown;
           frame_fresh_ids |]);
  apply Forall_nil; exact I.
Qed.

Lemma process_update_keeps_fresh_ids env u :
  preserves keeps_fresh_ids (process_update env u).
Proof.
  destruct u as [m|call|]; cbn [process_update].
  - apply process_message_preserves; [exact _ | apply handlers_keep_fresh_ids].
  - unfold process_callback, handle_callback, send_broadcast. frame_fresh_ids.
  - unfold update_daily_metrics. frame_fresh_ids.
Qed.

(** X24: the job ids and the event ids stay unique and below their
    counters: every job and every event gets an id that no earlier row
    has, whatever updates are handled and whichever writes fail. *)
Theorem run_keeps_ids_fresh events w :
  fresh_ids w -> fresh_ids (run events w).
Proof.
  apply (run_preserves keeps_fresh_ids process_update_keeps_fresh_ids).
Qed.

Lemma run_keeps_ids_fresh_witness :
  let env := Scenario.env None in
  let events :=
    [ (env, IncomingMessage (Scenario.message 3 CLIENT_BUTTON));
      (env, IncomingMessage (Scenario.message 3 "Logo design"));
      (env, IncomingMessage (Scenario.message 3 "Need a logo"));
      (env, IncomingMessage (Scenario.message 3 "$50")) ] in
  fresh_ids (run events (Scenario.world [Scenario.ana] ∅)).
Proof.
  cbn zeta. apply run_keeps_ids_fresh.
  repeat split; cbn; constructor.
Defined.

(** ** The ban command for a printed id *)

Lemma digit_is_no_space c : Py.is_digit c = true -> Py.is_int_space c = false.
Proof.
  destruct c as [[] [] [] [] [] [] [] []]; vm_compute; congruence.
Qed.

Lemma digit_is_no_underscore c : Py.is_digit c = true -> Ascii.eqb c "_" = false.
Proof.
  destruct c as [[] [] [] [] [] [] [] []]; vm_compute; congruence.
Qed.

Lemma all_chars_impl (p q : ascii -> bool) s :
  (forall c, p c = true -> q c = true) ->
  all_chars p s = true -> all_chars q s = true.
Proof.
  intros Hpq. induction s as [|c s IH]; cbn; [reflexivity|].
  intros [Hc Hs]%andb_prop. now rewrite (Hpq c Hc), IH.
Qed.

Lemma all_chars_rev_app p s1 s2 :
  all_chars p (String.rev_app s1 s2) = all_chars p s1 && all_chars p s2.
Proof.
  revert s2. induction s1 as [|c s1 IH]; intros s2; cbn; [reflexivity|].
  rewrite IH. cbn. destruct (p c), (all_chars p s1); reflexivity.
Qed.

Lemma rev_app_rev_app s1 s2 s3 :
  String.rev_app (String.rev_app s1 s2) s3 = String.rev_app s2 (s1 +:+ s3).
Proof.
  revert s2. induction s1 as [|c s1 IH]; intros s2; [reflexivity|].
  cbn [String.rev_app]. rewrite IH. reflexivity.
Qed.

Lemma append_empty s : s +:+ "" = s.
Proof.
  induction s as [|c s IH]; [reflexivity|].
  change (String c s +:+ "") with (String c (s +:+ "")). now rewrite IH.
Qed.

Lemma rev_rev s : String.rev (String.rev s) = s.
Proof.
  unfold String.rev. rewrite rev_app_rev_app. cbn [String.rev_app].
  apply append_empty.
Qed.

Lemma lstrip_no_space s :
  all_chars (fun c => negb (Py.is_int_space c)) s = true -> Py.lstrip s = s.
Proof.
  destruct s as [|c s]; cbn; [reflexivity|].
  intros [Hc _]%andb_prop. apply negb_true_iff in Hc. now rewrite Hc.
Qed.

Lemma strip_no_space s :
  all_chars (fun c => negb (Py.is_int_space c)) s = true -> Py.strip s = s.
Proof.
  intros H. unfold Py.strip. rewrite (lstrip_no_space s H).
  rewrite lstrip_no_space; [apply rev_rev|].
  unfold String.rev. now rewrite all_chars_rev_app, H.
Qed.

Lemma pretty_N_char_digit (x : N) :
  (x < 10)%N ->
  Py.is_digit (pretty_N_char x) = true
  /\ Z.of_nat (nat_of_ascii (pretty_N_char x)) - 48 = Z.of_N x.
Proof.
  intros Hx.
  assert (x = 0 \/ x = 1 \/ x = 2 \/ x = 3 \/ x = 4 \/ x = 5 \/ x = 6
          \/ x = 7 \/ x = 8 \/ x = 9)%N as H by lia.
  repeat (destruct H as [->|H]; [split; reflexivity|]). subst. split; reflexivity.
Qed.

Lemma int_digits_pretty_N_go (x : N) :
  forall s b,
    (0 < x)%N ->
    Py.int_digits (pretty_N_go x s) 0 b = Py.int_digits s (Z.of_N x) true.
Proof.
  induction (N.lt_wf_0 x) as [x _ IH]. intros s b Hx.
  rewrite pretty_N_go_step by assumption.
  destruct (pretty_N_char_digit (x `mod` 10)%N) as [Hd Hv];
    [now apply N.mod_lt|].
  assert (Hdiv : x = (10 * (x `div` 10) + x `mod` 10)%N) by (now apply N.div_mod).
  destruct (N.eq_dec (x `div` 10)%N 0%N) as [H0|Hpos].
  - rewrite H0, pretty_N_go_0. cbn [Py.int_digits]. rewrite Hd, Hv.
    f_equal. lia.
  - rewrite IH; [|apply N.div_lt; [exact Hx | reflexivity]|now apply N.neq_0_lt_0].
    cbn [Py.int_digits]. rewrite Hd, Hv. f_equal. lia.
Qed.

Lemma all_digits_pretty_N_go (x : N) :
  forall s,
    all_chars Py.is_digit s = true ->
    all_chars Py.is_digit (pretty_N_go x s) = true.
Proof.
  induction (N.lt_wf_0 x) as [x _ IH]. intros s Hs.
  destruct (N.eq_dec x 0%N) as [->|Hx]; [now rewrite pretty_N_go_0|].
  rewrite pretty_N_go_step by lia.
  apply IH; [apply N.div_lt; lia|]. cbn.
  destruct (pretty_N_char_digit (x `mod` 10)%N) as [Hd _];
    [now apply N.mod_lt|].
  now rewrite Hd, Hs.
Qed.

Lemma int_of_digits s :
  all_chars Py.is_digit s = true -> Py.int s = Py.int_digits s 0 false.
Proof.
  intros H. unfold Py.int. rewrite strip_no_space.
  - destruct s as [|c s]; [reflexivity|]. cbn in H.
    apply andb_prop in H as [Hc _].
    destruct c as [[] [] [] [] [] [] [] []]; try reflexivity;
      vm_compute in Hc; discriminate.
  - eapply all_chars_impl; [|exact H].
    intros c Hc. now rewrite (digit_is_no_space c Hc).
Qed.

Lemma int_str_positive p :
  all_chars Py.is_digit (pretty (Npos p)) = true
  /\ Py.int_digits (pretty (Npos p)) 0 false = Some (Zpos p).
Proof.
  unfold pretty, pretty_N. destruct (decide (N.pos p = 0%N)); [discriminate|].
  split.
  - now apply all_digits_pretty_N_go.
  - rewrite int_digits_pretty_N_go by lia. reflexivity.
Qed.

(** [int] skips blanks and line ends around the number, takes a sign and
    single underscores between digits, and refuses the separator U+001F,
    which [str.split] would drop. *)
Example int_examples :
  Py.int " 7 " = Some 7 /\ Py.int "-7" = Some (-7) /\ Py.int "007" = Some 7
  /\ Py.int "1_0" = Some 10 /\ Py.int "1__0" = None /\ Py.int "- 7" = None
  /\ Py.int "" = None
  /\ Py.int (String "7" (String "031" "")) = None
  /\ Py.split_ws (String "7" (String "031" "")) = ["7"].
Proof. vm_compute. repeat split; reflexivity. Qed.

(** A ban command that ends in that separator is answered with the
    error of [int] and bans nobody. *)
Example ban_with_separator_is_refused :
  let w := Scenario.world [Scenario.ana; Scenario.ben] ∅ in
  let r := process_message (Scenario.env (Some 1))
             (Scenario.message 1 ("/ban_7" +:+ String "031" "")) w in
  users (snd r) = [Scenario.ana; Scenario.ben]
  /\ body <$> trace (snd r) = [ErrorText ValueError].
Proof. vm_compute. split; reflexivity. Qed.

(** [int] reads back what [str] prints. *)
Lemma int_str n : Py.int (Py.str n) = Some n.
Proof.
  unfold Py.str, pretty, pretty_Z. destruct n as [|p|p]; [reflexivity| |].
  - unfold pretty, pretty_positive.
    destruct (int_str_positive p) as [Hall Hint].
    now rewrite int_of_digits.
  - unfold pretty at 1, pretty_positive.
    destruct (int_str_positive p) as [Hall Hint].
    change ("-" +:+ pretty (N.pos p)) with (String "-" (pretty (N.pos p))).
    generalize dependent (pretty (N.pos p)). intros ds Hall Hint.
    unfold Py.int. rewrite strip_no_space.
    + rewrite Hint. reflexivity.
    + cbn [all_chars]. apply andb_true_intro. split; [reflexivity|].
      eapply all_chars_impl; [|exact Hall].
      intros c Hc. now rewrite (digit_is_no_space c Hc).
Qed.

Lemma split_cons sep c s :
  Py.split sep (String c s) =
  if Ascii.eqb c sep then EmptyString :: Py.split sep s
  else match Py.split sep s with
       | w :: ws => String c w :: ws
       | [] => [String c EmptyString]
       end.
Proof. reflexivity. Qed.

Lemma split_no_separator sep s :
  all_chars (fun c => negb (Ascii.eqb c sep)) s = true -> Py.split sep s = [s].
Proof.
  induction s as [|c s IH]; cbn; [reflexivity|].
  intros [Hc Hs]%andb_prop. apply negb_true_iff in Hc.
  now rewrite Hc, IH.
Qed.

Lemma str_has_no_underscore n :
  all_chars (fun c => negb (Ascii.eqb c "_")) (Py.str n) = true.
Proof.
  unfold Py.str, pretty, pretty_Z. destruct n as [|p|p]; [reflexivity| |].
  - destruct (int_str_positive p) as [Hall _].
    eapply all_chars_impl; [|exact Hall].
    intros c Hc. now rewrite (digit_is_no_underscore c Hc).
  - destruct (int_str_positive p) as [Hall _].
    change ("-" +:+ pretty p) with (String "-" (pretty (N.pos p))).
    cbn [all_chars]. apply andb_true_intro. split; [reflexivity|].
    eapply all_chars_impl; [|exact Hall].
    intros c Hc. now rewrite (digit_is_no_underscore c Hc).
Qed.

Lemma split_ban_command n :
  Py.split "_" ("/ban_" +:+ Py.str n) = ["/ban"; Py.str n]
  /\ Py.split "_" ("/unban_" +:+ Py.str n) = ["/unban"; Py.str n].
Proof.
  pose proof (split_no_separator "_" (Py.str n) (str_has_no_underscore n)) as H.
  cbv [String.append]. rewrite !split_cons, H. split; reflexivity.
Qed.

(** X25: the commands [/ban_<id>] and [/unban_<id>], with the id in
    decimal as the user detail prints it, are understood for every id:
    sent by the admin with the database not locked, they set the ban
    flag of exactly that id to 1, respectively 0. *)
Theorem ban_command_round_trip env m w n :
  is_admin env (from_user_id m) = true ->
  write_locked w = false ->
  (text m = "/ban_" +:+ Py.str n ->
   users (snd (handle_ban_unban env m w))
   = update_user n (with_is_banned 1) (users w))
  /\ (text m = "/unban_" +:+ Py.str n ->
      users (snd (handle_ban_unban env m w))
      = update_user n (with_is_banned 0) (users w)).
Proof.
  intros Hadmin Hfree. destruct (split_ban_command n) as [Hban Hunban].
  split; intros Htext.
  - destruct (handle_ban_unban_users env m w "/ban" (Py.str n) [] n Hadmin Hfree)
      as (Hu & _); [now rewrite Htext | apply int_str | exact Hu].
  - destruct (handle_ban_unban_users env m w "/unban" (Py.str n) [] n Hadmin Hfree)
      as (Hu & _); [now rewrite Htext | apply int_str | exact Hu].
Qed.

Lemma ban_command_round_trip_witness :
  let w := Scenario.world [Scenario.ana; Scenario.ben] ∅ in
  users (snd (handle_ban_unban (Scenario.env (Some 1))
                (Scenario.message 1 "/ban_7") w))
  = update_user 7 (with_is_banned 1) [Scenario.ana; Scenario.ben].
Proof.
  cbn zeta.
  destruct (ban_command_round_trip (Scenario.env (Some 1))
              (Scenario.message 1 "/ban_7")
              (Scenario.world [Scenario.ana; Scenario.ben] ∅) 7)
    as [Hban _]; [reflexivity | reflexivity |].
  apply Hban. reflexivity.
Defined.

(** ** Local time against UTC *)

Lemma filter_none {A : Type} (p : A -> bool) l :
  Forall (fun x => p x = false) l -> List.filter p l = [].
Proof.
  induction 1 as [|x l Hx _ IH]; cbn; [reflexivity|]. now rewrite Hx.
Qed.

(** X26: the dashboard compares the UTC timestamps of the events with a
    cut-off in local time.  When local time is at least five minutes
    ahead of UTC and no event is stamped later than the clock, "active
    now" is 0, however recent the events are. *)
Theorem dashboard_active_now_is_zero_ahead_of_utc env m w :
  is_admin env (from_user_id m) = true ->
  300 <= tz env ->
  Forall (fun a => Activity.timestamp a <= now env) (user_activity w) ->
  exists total_users total_jobs new_users_today new_jobs_today recent,
    admin_dashboard env m w
    = send_message env (chat_id m)
        (Dashboard total_users total_jobs new_users_today new_jobs_today 0
                   recent) w.
Proof.
  intros Hadmin Htz Hpast. unfold admin_dashboard. rewrite Hadmin. cbn [negb].
  unfold mbind, M_bind, bind, get. cbv beta iota zeta.
  unfold count_distinct_users. rewrite filter_none.
  - repeat eexists.
  - eapply Forall_impl; [exact Hpast|]. cbn. intros a Ha.
    apply Z.ltb_ge. lia.
Qed.

Lemma dashboard_active_now_is_zero_ahead_of_utc_witness :
  let env := Scenario.env (Some 1) in
  let w := snd (log_activity env 7 "view_jobs" "Browsed job listings"
                  (Scenario.world [Scenario.ana] ∅)) in
  exists total_users total_jobs new_users_today new_jobs_today recent,
    admin_dashboard env (Scenario.message 1 "/dashboard") w
    = send_message env 1
        (Dashboard total_users total_jobs new_users_today new_jobs_today 0
                   recent) w.
Proof.
  cbn zeta.
  apply (dashboard_active_now_is_zero_ahead_of_utc (Scenario.env (Some 1))
           (Scenario.message 1 "/dashboard")).
  - reflexivity.
  - vm_compute. discriminate.
  - apply (bool_decide_unpack _). vm_compute. exact I.
Defined.

(** ** The row after a role selection *)

(** X27: after a role button, with the database not locked, the row of
    the sender is the sender's id, handle and chosen role with every
    other column at its default, whatever the row held before: skills
    and location are empty and a ban is lifted, so that a banned user is
    a broadcast target again. *)
Theorem role_button_replaces_row env m w :
  is_role_text m = true ->
  write_locked w = false ->
  let w' := snd (process_message env m w) in
  select_user (from_user_id m) w'
  = Some (User.mk (from_user_id m) (username_of m)
            (if Py.contains "Freelancer" (text m) then "freelancer" else "client")
            "" "" 0 (now env))
  /\ from_user_id m ∈ broadcast_targets w'.
Proof.
  intros Hrole Hfree. cbn zeta. rewrite process_message_role_text by assumption.
  assert (Hrow : select_user (from_user_id m) (snd (choose_role env m w))
                 = Some (User.mk (from_user_id m) (username_of m)
                           (if Py.contains "Freelancer" (text m)
                            then "freelancer" else "client") "" "" 0 (now env))).
  { unfold choose_role, mbind, M_bind, bind.
    rewrite log_activity_eq, Hfree. unfold save_user, db_write.
    cbn [write_locked add_activity]. rewrite Hfree. cbv beta iota.
    destruct (Py.contains "Freelancer" (text m));
      cbn [String.eqb Ascii.eqb Bool.eqb];
      unfold modify, send_message; cbv beta iota;
      match goal with
      | |- context [deliver env ?n ?c] => destruct (deliver env n c)
      end; unfold select_user; cbn -[replace_user];
      match goal with
      | |- List.find _ (replace_user ?row _) = _ => apply (find_replace_user row)
      end. }
  split; [exact Hrow|].
  unfold select_user in Hrow. apply List.find_some in Hrow as [Hin _].
  unfold broadcast_targets. apply elem_of_filter_scan, list_elem_of_fmap.
  eexists. split; [|apply list_elem_of_In, List.filter_In; split; [exact Hin|]];
    reflexivity.
Qed.

Lemma role_button_replaces_row_witness :
  let banned := with_is_banned 1 Scenario.ana in
  let w' := snd (process_message (Scenario.env None)
                   (Scenario.message 7 FREELANCER_BUTTON)
                   (Scenario.world [banned; Scenario.ben] ∅)) in
  select_user 7 w' = Some (User.mk 7 "ana" "freelancer" "" "" 0 1700000000)
  /\ 7 ∈ broadcast_targets w'.
Proof.
  cbn zeta.
  apply (role_button_replaces_row (Scenario.env None)
           (Scenario.message 7 FREELANCER_BUTTON)
           (Scenario.world [with_is_banned 1 Scenario.ana; Scenario.ben] ∅));
    reflexivity.
Defined.
